(** * Okta Terraform provider: the OAuth-application and users data sources

    A shallow embedding of [okta/data_source_okta_app_oauth.go] and
    [okta/data_source_okta_users.go], with the properties the
    specification states about them.

    Go values are embedded as follows: a [string] is a sequence of bytes
    (Rocq's [string]); an [int] is a [Z] kept inside the 64-bit range; a
    slice is a [list] (the nil slice is [[]]); a [(value, error)] result is
    a pair whose second component is an [option]; the resource data [d] is
    a record holding the identifier and a finite map of attributes; what a
    read function does to the outside world (log lines, sleeping, requests)
    is recorded in a trace. *)

From Stdlib Require Import ZArith List String Ascii Bool Lia.
From Stdlib Require Import DecimalString.
From stdpp Require Import base gmap strings list fin_maps.

Local Open Scope string_scope.
Local Open Scope list_scope.
Local Open Scope Z_scope.

(* ===================================================================== *)
(** ** Go primitives used by the two data sources *)
(* ===================================================================== *)

Module Go.

(** [error] values are identified with their [Error()] text. *)
Definition error := string.

(** Go compares strings byte by byte: [a > b]. *)
Definition string_gt (a b : string) : bool :=
  match String.compare a b with Gt => true | _ => false end.

Definition string_lt (a b : string) : bool :=
  match String.compare a b with Lt => true | _ => false end.

(** [int] and [int64] on the 64-bit targets the provider is built for. *)
Definition intSize : Z := 64.
Definition minInt : Z := - 2 ^ (intSize - 1).
Definition maxInt : Z := 2 ^ (intSize - 1) - 1.

(** Two's complement wrap-around of a signed 64-bit result. *)
Definition wrap64 (z : Z) : Z := (z + 2 ^ 63) mod 2 ^ 64 - 2 ^ 63.

Definition mul64 (a b : Z) : Z := wrap64 (a * b).

(** [ch -= '0'; if ch > 9 { syntax error }] *)
Definition digit (c : ascii) : option Z :=
  let n := Z.of_N (N_of_ascii c) in
  if (48 <=? n) && (n <=? 57) then Some (n - 48) else None.

Fixpoint digits (s : string) (acc : Z) : option Z :=
  match s with
  | EmptyString => Some acc
  | String c tl =>
      match digit c with
      | Some v => digits tl (acc * 10 + v)
      | None => None
      end
  end.

(** [strconv.Atoi]: an optional sign, then one or more decimal digits; a
    value outside the [int] range is a range error.  [None] stands for a
    non-nil [err]. *)
Definition Atoi (s : string) : option Z :=
  match s with
  | EmptyString => None
  | String c tl =>
      let neg := Ascii.eqb c "-" in
      let body := if neg || Ascii.eqb c "+" then tl else s in
      match body with
      | EmptyString => None
      | _ =>
          match digits body 0 with
          | None => None
          | Some n =>
              let v := if neg then - n else n in
              if (minInt <=? v) && (v <=? maxInt) then Some v else None
          end
      end
  end.

(** [fmt.Sprintf("%d", n)] *)
Definition Sprintf_d (n : Z) : string :=
  NilZero.string_of_int (Z.to_int n).

(** [time.Duration], in nanoseconds, and [time.Second]. *)
Definition Second : Z := 1000000000.

(** [time.Duration(delay) * time.Second] *)
Definition seconds (delay : Z) : Z := mul64 delay Second.

(** How long [time.Sleep d] blocks: a negative or zero duration returns
    immediately. *)
Definition blocked_ns (d : Z) : Z := Z.max 0 d.

(** [[]byte(s)] *)
Definition bytes (s : string) : list Z :=
  List.map (fun c => Z.of_N (N_of_ascii c)) (list_ascii_of_string s).

End Go.

(** [hash/crc32], the byte-at-a-time implementation. *)
Module crc32.

Definition IEEE : Z := 0xedb88320.

Definition mask32 : Z := 0xffffffff.

(** One round of [simplePopulateTable]'s inner loop. *)
Definition round (poly crc : Z) : Z :=
  if Z.odd crc then Z.lxor (Z.shiftr crc 1) poly else Z.shiftr crc 1.

(** Entry [i] of the table [simpleMakeTable poly]. *)
Definition tab (poly i : Z) : Z := Nat.iter 8 (round poly) i.

(** [^crc] on a [uint32] *)
Definition not32 (crc : Z) : Z := Z.lxor crc mask32.

(** [simpleUpdate]: [crc = tab[byte(crc)^v] ^ (crc >> 8)] for each byte. *)
Definition simpleUpdate (crc : Z) (poly : Z) (p : list Z) : Z :=
  not32 (fold_left
           (fun crc v => Z.lxor (tab poly (Z.lxor (Z.land crc 0xff) v))
                                (Z.shiftr crc 8))
           p (not32 crc)).

Definition ChecksumIEEE (data : list Z) : Z := simpleUpdate 0 IEEE data.

(** The range of a [uint32]. *)
Definition u32 (z : Z) : Prop := 0 <= z < 2 ^ 32.

End crc32.

(* ===================================================================== *)
(** ** The plugin SDK's resource data, and the effects of a read *)
(* ===================================================================== *)

Module schema.

Inductive Kind := TypeString | TypeBool | TypeSet | TypeList.

(** An [interface{}] stored in a flattened object
    ([map[string]interface{}]). *)
Inductive Raw :=
| RString (s : string)
| RStrings (l : list string).

(** The values an attribute of the two data sources holds: a string, a
    bool, a set of strings ([*schema.Set] hashed with [HashString]), or a
    collection of nested objects. *)
Inductive Value :=
| VString (s : string)
| VBool (b : bool)
| VSet (xs : gset string)
| VObjects (os : list (gmap string Raw)).

Definition compatible (k : Kind) (v : Value) : bool :=
  match k, v with
  | TypeString, VString _ => true
  | TypeBool, VBool _ => true
  | TypeSet, VSet _ => true
  | TypeSet, VObjects _ => true
  | TypeList, VObjects _ => true
  | _, _ => false
  end.

(** The zero value of each type, which [GetOk] reports as not set. *)
Definition isZero (v : Value) : bool :=
  match v with
  | VString s => String.eqb s ""
  | VBool b => negb b
  | VSet xs => bool_decide (xs = ∅)
  | VObjects os => match os with [] => true | _ => false end
  end.

Record ResourceData := mkResourceData {
  rd_id : string;
  rd_attrs : gmap string Value
}.

(** [d.GetOk(key)]: the value and whether it is set to a non-zero value. *)
Definition GetOk (d : ResourceData) (key : string) : option Value :=
  match rd_attrs d !! key with
  | Some v => if isZero v then None else Some v
  | None => None
  end.

(** [d.Get(key).(bool)]; an unset attribute reads as the zero value. *)
Definition GetBool (d : ResourceData) (key : string) : bool :=
  match rd_attrs d !! key with
  | Some (VBool b) => b
  | _ => false
  end.

(** [d.SetId(id)] *)
Definition SetId (id : string) (d : ResourceData) : ResourceData :=
  mkResourceData id (rd_attrs d).

(** [d.Set(key, value)] against the schema [sch] of the data source: the
    attribute must be declared, with a type the value fits; otherwise an
    error is returned and [d] is left as it was. *)
Definition Set_ (sch : gmap string Kind) (key : string) (v : Value)
    (d : ResourceData) : ResourceData * option Go.error :=
  match sch !! key with
  | Some k =>
      if compatible k v
      then (mkResourceData (rd_id d) (<[key := v]> (rd_attrs d)), None)
      else (d, Some ("invalid value for attribute " +:+ key))
  | None => (d, Some ("invalid address to set: " +:+ key))
  end.

(** [convertStringSliceToSet]: the strings of a slice as a set. *)
Definition convertStringSliceToSet (params : list string) : gset string :=
  list_to_set params.

End schema.

(** [diag.Diagnostics]: the summaries of the error diagnostics; [nil] is a
    successful read. *)
Definition Diagnostics := list string.

(** [diag.Errorf] *)
Definition Errorf (summary : string) : Diagnostics := [summary].

(** [okta/query]: the parameters the two data sources fill in. *)
Module query.

Record Params := mkParams {
  Q : string;
  Filter : string;
  Search : string;
  Limit : Z;
  SortOrder : string
}.

End query.

(** What a read does besides updating [d]. *)
Inductive Remote :=
| ReqListUsers (qp : query.Params)
| ReqNextPage
| ReqListGroupUsers (groupId : string)
| ReqGroupsForUser (userId : string)
| ReqAdminRoles (userId : string)
| ReqGetApplication (id : string)
| ReqUsersAndGroups (appId : string)
| ReqHTTP (method url : string).

Inductive Event :=
| LogInfo (args : list string)
| LogWarn (args : list string)
| Sleep (d : Z)
| Request (r : Remote).

Definition isRequest (e : Event) : bool :=
  match e with Request _ => true | _ => false end.

(** Code that only talks to the outside world: its result and the events
    it caused, in order. *)
Definition IO (A : Type) : Type := A * list Event.

Definition io_ret {A} (a : A) : IO A := (a, []).

Definition io_bind {A B} (m : IO A) (f : A -> IO B) : IO B :=
  let '(a, t1) := m in
  let '(b, t2) := f a in
  (b, t1 ++ t2).

Definition io_emit (e : Event) : IO unit := (tt, [e]).

(** A read function: it updates [d], causes events, and either runs on
    ([Next]) or returns diagnostics ([Done]). *)
Module Read.

Record State := mkState {
  st_d : schema.ResourceData;
  st_trace : list Event
}.

Inductive Step (A : Type) :=
| Done (diags : Diagnostics)
| Next (a : A).
Arguments Done {A} diags.
Arguments Next {A} a.

Definition M (A : Type) : Type := State -> Step A * State.

Definition ret {A} (a : A) : M A := fun s => (Next a, s).

Definition bind {A B} (m : M A) (f : A -> M B) : M B :=
  fun s =>
    match m s with
    | (Done diags, s') => (Done diags, s')
    | (Next a, s') => f a s'
    end.

(** [return diags] *)
Definition done {A} (diags : Diagnostics) : M A := fun s => (Done diags, s).

Definition io {A} (m : IO A) : M A :=
  fun s => (Next (fst m), mkState (st_d s) (st_trace s ++ snd m)).

Definition emit (e : Event) : M unit := io (io_emit e).

Definition get : M schema.ResourceData := fun s => (Next (st_d s), s).

Definition modify (f : schema.ResourceData -> schema.ResourceData) : M unit :=
  fun s => (Next tt, mkState (f (st_d s)) (st_trace s)).

(** [d.Set(key, v)], handing back the error. *)
Definition set (sch : gmap string schema.Kind) (key : string)
    (v : schema.Value) : M (option Go.error) :=
  fun s =>
    let '(d', err) := schema.Set_ sch key v (st_d s) in
    (Next err, mkState d' (st_trace s)).

(** [_ = d.Set(key, v)] *)
Definition set_ (sch : gmap string schema.Kind) (key : string)
    (v : schema.Value) : M unit :=
  bind (set sch key v) (fun _ => ret tt).

(** The diagnostics a read function hands back, and the state it leaves:
    [return diags] in the middle of the body or as its last statement. *)
Definition finish (r : Step Diagnostics * State) : Diagnostics * State :=
  match r with
  | (Done diags, s) => (diags, s)
  | (Next diags, s) => (diags, s)
  end.

(** Running a read on [d], with nothing done yet. *)
Definition run (m : M Diagnostics) (d : schema.ResourceData)
    : Diagnostics * State :=
  finish (m (mkState d [])).

(** *** Vocabulary of the properties *)

(** Whatever state [m] starts in, the events it causes are appended to
    the trace and all satisfy [P]. *)
Definition traced {A} (P : Event -> Prop) (m : M A) : Prop :=
  forall s, exists evs,
    st_trace (snd (m s)) = st_trace s ++ evs /\ Forall P evs.

(** [m] leaves the identifier of [d] alone. *)
Definition keepsId {A} (m : M A) : Prop :=
  forall s, schema.rd_id (st_d (snd (m s))) = schema.rd_id (st_d s).

(** [m] leaves [d] alone; when it runs on, its result satisfies [Q]; when
    it returns, its diagnostics satisfy [F]. *)
Definition yields {A} (Q : A -> Prop) (F : Diagnostics -> Prop) (m : M A)
    : Prop :=
  forall s,
    st_d (snd (m s)) = st_d s /\
    match fst (m s) with
    | Next a => Q a
    | Done diags => F diags
    end.

(** *** Reads that may panic *)

(** A read function whose body may also panic, on a nil pointer
    dereference or an index out of range: [None] in place of the step.
    The state is what had been done until then. *)
Definition P (A : Type) : Type := State -> option (Step A) * State.

(** A computation that cannot panic, inside one that may. *)
Definition lift {A} (m : M A) : P A :=
  fun s => let '(r, s') := m s in (Some r, s').

Definition pbind {A B} (m : P A) (f : A -> P B) : P B :=
  fun s =>
    match m s with
    | (Some (Next a), s') => f a s'
    | (Some (Done diags), s') => (Some (Done diags), s')
    | (None, s') => (None, s')
    end.

(** The value behind a pointer that may be nil, or of a computation that
    may have panicked. *)
Definition orPanic {A} (v : option A) : P A :=
  fun s =>
    match v with
    | Some a => (Some (Next a), s)
    | None => (None, s)
    end.

(** The diagnostics handed back, unless the body panicked. *)
Definition pfinish (r : option (Step Diagnostics) * State)
    : option Diagnostics * State :=
  match r with
  | (Some (Done diags), s) => (Some diags, s)
  | (Some (Next diags), s) => (Some diags, s)
  | (None, s) => (None, s)
  end.

Definition prun (m : P Diagnostics) (d : schema.ResourceData)
    : option Diagnostics * State :=
  pfinish (m (mkState d [])).

End Read.

Declare Scope read_scope.
Delimit Scope read_scope with read.
Notation "'let*' x ':=' m 'in' k" := (Read.bind m (fun x => k))
  (at level 10, x name, m at level 100, k at level 200) : read_scope.
Notation "'let*' ' p ':=' m 'in' k" :=
  (Read.bind m (fun x => match x with p => k end))
  (at level 10, p pattern, m at level 100, k at level 200) : read_scope.
Notation "'run*' m 'in' k" := (Read.bind m (fun _ => k))
  (at level 10, m at level 100, k at level 200) : read_scope.
Notation "'let!' x ':=' m 'in' k" := (Read.pbind m (fun x => k))
  (at level 10, x name, m at level 100, k at level 200) : read_scope.
Notation "'let!' ' p ':=' m 'in' k" :=
  (Read.pbind m (fun x => match x with p => k end))
  (at level 10, p pattern, m at level 100, k at level 200) : read_scope.
Notation "'run!' m 'in' k" := (Read.pbind m (fun _ => k))
  (at level 10, m at level 100, k at level 200) : read_scope.

(* ===================================================================== *)
(** ** [okta/data_source_okta_users.go] *)
(* ===================================================================== *)

Module Users.

Import Read.
Local Open Scope read_scope.

(** [okta.User]: the read uses the identifier only; the profile is what
    [flattenUser] projects. *)
Record User := mkUser {
  Id : string;
  Profile : gmap string string
}.

(** [*okta.Response] after a page of users: either there is no further
    page, or [Next] delivers the next page and its response, or [Next]
    fails. *)
Inductive Response :=
| LastPage
| NextOk (nextUsers : list User) (resp : Response)
| NextErr (err : Go.error).

(** [resp.HasNextPage()] *)
Definition HasNextPage (resp : Response) : bool :=
  match resp with LastPage => false | _ => true end.

(** The Okta client, as far as the users read calls it: each entry is
    what the server answers. *)
Record Client := mkClient {
  ListUsers : query.Params -> list User * Response * option Go.error;
  listGroupUsers : string -> list User * option Go.error;
  getGroupsForUser : string -> list string * option Go.error;
  getAdminRoles : string -> list string * option Go.error
}.

(** Helpers and constants of the provider declared outside the two
    files. *)
Record Helpers := mkHelpers {
  defaultPaginationLimit : Z;
  getSearchCriteria : schema.ResourceData -> string;
  Params_String : query.Params -> string;
  flattenUser : User -> gmap string schema.Raw
}.

(** [for i := range nextUsers { users = append(users, nextUsers[i]) }] *)
Definition appendEach (users nextUsers : list User) : list User :=
  fold_left (fun users u => users ++ [u]) nextUsers users.

(** The loop [for resp.HasNextPage() { ... }] of [collectUsers]. *)
Fixpoint followPages (users : list User) (resp : Response)
    : IO (list User * option Go.error) :=
  match resp with
  | LastPage => io_ret (users, None)
  | NextErr err =>
      io_bind (io_emit (Request ReqNextPage)) (fun _ =>
      io_ret ([], Some err))
  | NextOk nextUsers resp' =>
      io_bind (io_emit (Request ReqNextPage)) (fun _ =>
      followPages (appendEach users nextUsers) resp')
  end.

Definition collectUsers (client : Client) (qp : query.Params)
    : IO (list User * option Go.error) :=
  io_bind (io_emit (Request (ReqListUsers qp))) (fun _ =>
  let '(users, resp, err) := ListUsers client qp in
  match err with
  | Some err => io_ret ([], Some err)
  | None => followPages users resp
  end).

(** The schema of the data source, by attribute. *)
Definition dataSourceUsers : gmap string schema.Kind :=
  list_to_map
    [ ("group_id", schema.TypeString);
      ("include_groups", schema.TypeBool);
      ("include_roles", schema.TypeBool);
      ("search", schema.TypeSet);
      ("users", schema.TypeList);
      ("compound_search_operator", schema.TypeString);
      ("delay_read_seconds", schema.TypeString) ].

(** [v, ok := d.GetOk(key)] followed by [v.(string)], for an attribute
    the schema declares as [TypeString]. *)
Definition GetOkString (d : schema.ResourceData) (key : string)
    : option string :=
  match schema.GetOk d key with
  | Some (schema.VString s) => Some s
  | _ => None
  end.

(** The first block of [dataSourceUsersRead]. *)
Definition delayRead (d : schema.ResourceData) : M unit :=
  match GetOkString d "delay_read_seconds" with
  | Some n =>
      match Go.Atoi n with
      | Some delay =>
          run* emit (LogInfo ["delaying users read by ";
                              Go.Sprintf_d delay; " seconds"]) in
          emit (Sleep (Go.seconds delay))
      | None =>
          emit (LogWarn ["users read delay value "; n;
                         " is not an integer"])
      end
  | None => ret tt
  end.

(** The body of [for i, user := range users]; [arr] is built front to
    back. *)
Fixpoint flattenEach (h : Helpers) (client : Client)
    (includeGroups includeRoles : bool) (users : list User)
    : M (list (gmap string schema.Raw)) :=
  match users with
  | [] => ret []
  | user :: rest =>
      let rawMap := <["id" := schema.RString (Id user)]> (flattenUser h user) in
      let* rawMap :=
        (if includeGroups then
           let* '(groups, err) :=
             io (getGroupsForUser client (Id user),
                 [Request (ReqGroupsForUser (Id user))]) in
           match err with
           | Some err => done (Errorf ("failed to list users: " +:+ err))
           | None =>
               ret (<["group_memberships" := schema.RStrings groups]> rawMap)
           end
         else ret rawMap) in
      let* rawMap :=
        (if includeRoles then
           let* '(roles, err) :=
             io (getAdminRoles client (Id user),
                 [Request (ReqAdminRoles (Id user))]) in
           match err with
           | Some err =>
               done (Errorf ("failed to set user's admin roles: " +:+ err))
           | None => ret (<["admin_roles" := schema.RStrings roles]> rawMap)
           end
         else ret rawMap) in
      let* arr := flattenEach h client includeGroups includeRoles rest in
      ret (rawMap :: arr)
  end.

(** [&query.Params{Search: getSearchCriteria(d),
      Limit: defaultPaginationLimit, SortOrder: "0"}] *)
Definition searchParams (h : Helpers) (d : schema.ResourceData)
    : query.Params :=
  {| query.Q := "";
     query.Filter := "";
     query.Search := getSearchCriteria h d;
     query.Limit := defaultPaginationLimit h;
     query.SortOrder := "0" |}.

(** [id = fmt.Sprintf("%d", crc32.ChecksumIEEE([]byte(params.String())))] *)
Definition searchId (h : Helpers) (params : query.Params) : string :=
  Go.Sprintf_d (crc32.ChecksumIEEE (Go.bytes (Params_String h params))).

(** The selector: [if groupId, ok := d.GetOk("group_id"); ok { ... }
    else if _, ok := d.GetOk("search"); ok { ... } else { return ... }],
    yielding [id], [users] and [err]. *)
Definition listUsers (h : Helpers) (client : Client)
    : M (string * (list User * option Go.error)) :=
  let* d := get in
  match GetOkString d "group_id" with
  | Some groupId =>
      let* r := io (listGroupUsers client groupId,
                    [Request (ReqListGroupUsers groupId)]) in
      ret (groupId, r)
  | None =>
      match schema.GetOk d "search" with
      | Some _ =>
          let params := searchParams h d in
          let id := searchId h params in
          let* r := io (collectUsers client params) in
          ret (id, r)
      | None =>
          done (Errorf "must specify either group_id or search attributes")
      end
  end.

(** From [includeGroups := ...] to the end of the function. *)
Definition setUsers (h : Helpers) (client : Client) (users : list User)
    : M Diagnostics :=
  let* d := get in
  let includeGroups := schema.GetBool d "include_groups" in
  let includeRoles := schema.GetBool d "include_roles" in
  let* arr := flattenEach h client includeGroups includeRoles users in
  run* set_ dataSourceUsers "users" (schema.VObjects arr) in
  done [].

(** [dataSourceUsersRead] after its first block. *)
Definition listAndFlatten (h : Helpers) (client : Client) : M Diagnostics :=
  let* '(id, (users, err)) := listUsers h client in
  match err with
  | Some err => done (Errorf ("failed to list users: " +:+ err))
  | None =>
      run* modify (schema.SetId id) in
      setUsers h client users
  end.

Definition dataSourceUsersRead_body (h : Helpers) (client : Client)
    : M Diagnostics :=
  let* d := get in
  run* delayRead d in
  listAndFlatten h client.

Definition dataSourceUsersRead (h : Helpers) (client : Client)
    (d : schema.ResourceData) : Diagnostics * State :=
  run (dataSourceUsersRead_body h client) d.

(** *** Vocabulary of the properties *)

(** The pages a chain of responses still delivers, in order, and the
    error the chain ends in, if it ends in one. *)
Fixpoint pagesOf (resp : Response) : list (list User) :=
  match resp with
  | LastPage => []
  | NextOk nextUsers resp' => nextUsers :: pagesOf resp'
  | NextErr _ => []
  end.

Fixpoint failureOf (resp : Response) : option Go.error :=
  match resp with
  | LastPage => None
  | NextOk _ resp' => failureOf resp'
  | NextErr err => Some err
  end.

(** The requests that list users by a selector. *)
Definition isQuery (e : Event) : bool :=
  match e with
  | Request (ReqListUsers _) => true
  | Request (ReqListGroupUsers _) => true
  | _ => false
  end.

(** A request that follows up on a listing: a next page, or the groups
    or roles of one user. *)
Definition followUp (e : Event) : Prop :=
  isRequest e = true /\ isQuery e = false.

(** The listing request the selector of [d] stands for. *)
Definition selectorQueries (h : Helpers) (d : schema.ResourceData)
    : list Event :=
  match GetOkString d "group_id" with
  | Some groupId => [Request (ReqListGroupUsers groupId)]
  | None =>
      match schema.GetOk d "search" with
      | Some _ => [Request (ReqListUsers (searchParams h d))]
      | None => []
      end
  end.

(** What the first block of the read logs and does, by the configured
    delay. *)
Definition warnNotInteger (n : string) : Event :=
  LogWarn ["users read delay value "; n; " is not an integer"].

Definition infoDelaying (delay : Z) : Event :=
  LogInfo ["delaying users read by "; Go.Sprintf_d delay; " seconds"].

Definition delayEvents (d : schema.ResourceData) : list Event :=
  match GetOkString d "delay_read_seconds" with
  | Some n =>
      match Go.Atoi n with
      | Some delay => [infoDelaying delay; Sleep (Go.seconds delay)]
      | None => [warnNotInteger n]
      end
  | None => []
  end.

(** The second half of the delay claim, as the specification words it:
    any value [Atoi] accepts makes the read block for that many
    seconds. *)
Definition blocksForConfiguredSeconds : Prop :=
  forall (h : Helpers) (client : Client) (d : schema.ResourceData)
         (n : string) (delay : Z),
    GetOkString d "delay_read_seconds" = Some n ->
    Go.Atoi n = Some delay ->
    exists ns evs,
      st_trace (snd (dataSourceUsersRead h client d))
        = infoDelaying delay :: Sleep ns :: evs /\
      Go.blocked_ns ns = delay * Go.Second.

(** *** Sample data *)

Definition alice : User := mkUser "00u1" ∅.
Definition bob : User := mkUser "00u2" ∅.
Definition carol : User := mkUser "00u3" ∅.

Definition sampleHelpers : Helpers :=
  {| defaultPaginationLimit := 200;
     getSearchCriteria := fun _ => "profile.lastName sw Do";
     Params_String := fun qp =>
       "?limit=" +:+ Go.Sprintf_d (query.Limit qp)
       +:+ "&search=" +:+ query.Search qp
       +:+ "&sortOrder=" +:+ query.SortOrder qp;
     flattenUser := fun _ => ∅ |}.

(** Three pages, one user each. *)
Definition threePages : Client :=
  {| ListUsers := fun _ =>
       ([alice], NextOk [bob] (NextOk [carol] LastPage), None);
     listGroupUsers := fun _ => ([alice; bob], None);
     getGroupsForUser := fun _ => (["00g1"], None);
     getAdminRoles := fun _ => ([], None) |}.

(** The third page cannot be fetched. *)
Definition thirdPageFails : Client :=
  {| ListUsers := fun _ =>
       ([alice], NextOk [bob] (NextErr "502 Bad Gateway"), None);
     listGroupUsers := fun _ => ([], Some "404 Not Found");
     getGroupsForUser := fun _ => ([], None);
     getAdminRoles := fun _ => ([], None) |}.

Definition onePage : Client :=
  {| ListUsers := fun _ => ([carol], LastPage, None);
     listGroupUsers := fun _ => ([carol], None);
     getGroupsForUser := fun _ => ([], Some "429 Too Many Requests");
     getAdminRoles := fun _ => (["SUPER_ADMIN"], None) |}.

Definition config (attrs : list (string * schema.Value))
    : schema.ResourceData :=
  schema.mkResourceData "" (list_to_map attrs).

Definition searchClause : gmap string schema.Raw :=
  {[ "name" := schema.RString "profile.lastName";
     "comparison" := schema.RString "sw";
     "value" := schema.RString "Do" ]}.

Definition noSelector : schema.ResourceData :=
  config [("include_groups", schema.VBool true)].

Definition byGroup : schema.ResourceData :=
  config [("group_id", schema.VString "00g1");
          ("delay_read_seconds", schema.VString "2")].

Definition bySearch : schema.ResourceData :=
  config [("search", schema.VObjects [searchClause]);
          ("delay_read_seconds", schema.VString "soon")].

Definition bySearchWithGroups : schema.ResourceData :=
  config [("search", schema.VObjects [searchClause]);
          ("include_groups", schema.VBool true)].

Definition hugeDelay : schema.ResourceData :=
  config [("group_id", schema.VString "00g1");
          ("delay_read_seconds", schema.VString "9223372037")].

(** *** Further vocabulary *)

(** The listing of the users read succeeds, by group or by search, with
    the identifier [id] and the records [users]. *)
Definition lists (h : Helpers) (client : Client) (d : schema.ResourceData)
    (id : string) (users : list User) : Prop :=
  (GetOkString d "group_id" = Some id /\
   listGroupUsers client id = (users, None)) \/
  (GetOkString d "group_id" = None /\
   is_Some (schema.GetOk d "search") /\
   id = searchId h (searchParams h d) /\
   fst (collectUsers client (searchParams h d)) = (users, None)).

(** The listing fails with [err]. *)
Definition listingFails (h : Helpers) (client : Client)
    (d : schema.ResourceData) (err : Go.error) : Prop :=
  (exists groupId users,
      GetOkString d "group_id" = Some groupId /\
      listGroupUsers client groupId = (users, Some err)) \/
  (GetOkString d "group_id" = None /\
   is_Some (schema.GetOk d "search") /\
   snd (fst (collectUsers client (searchParams h d))) = Some err).

(** A user as the read flattens it without groups and roles, and with
    both. *)
Definition flatObject (h : Helpers) (u : User) : gmap string schema.Raw :=
  <["id" := schema.RString (Id u)]> (flattenUser h u).

Definition fullObject (h : Helpers) (client : Client) (u : User)
    : gmap string schema.Raw :=
  <["admin_roles" := schema.RStrings (fst (getAdminRoles client (Id u)))]>
  (<["group_memberships" :=
       schema.RStrings (fst (getGroupsForUser client (Id u)))]>
   (flatObject h u)).

Definition perUserRequests (u : User) : list Event :=
  [Request (ReqGroupsForUser (Id u)); Request (ReqAdminRoles (Id u))].

Definition isPerUser (e : Event) : bool :=
  match e with
  | Request (ReqGroupsForUser _) => true
  | Request (ReqAdminRoles _) => true
  | _ => false
  end.

(** The flattened object carries the identifier of its user. *)
Definition carriesId (u : User) (o : gmap string schema.Raw) : Prop :=
  o !! "id" = Some (schema.RString (Id u)).

(** The two diagnostics of the per-user loop. *)
Definition perUserFailure (diags : Diagnostics) : Prop :=
  exists err,
    diags = Errorf ("failed to list users: " +:+ err) \/
    diags = Errorf ("failed to set user's admin roles: " +:+ err).

Definition withGroupsAndRoles : schema.ResourceData :=
  config [("group_id", schema.VString "00g1");
          ("include_groups", schema.VBool true);
          ("include_roles", schema.VBool true)].

Definition negativeDelay : schema.ResourceData :=
  config [("group_id", schema.VString "00g1");
          ("delay_read_seconds", schema.VString "-5")].

Definition bothSelectors : schema.ResourceData :=
  config [("group_id", schema.VString "00g1");
          ("search", schema.VObjects [searchClause])].

Definition emptyDelay : schema.ResourceData :=
  config [("group_id", schema.VString "00g1");
          ("delay_read_seconds", schema.VString "")].

End Users.

(* ===================================================================== *)
(** ** [okta/data_source_okta_app_oauth.go] *)
(* ===================================================================== *)

Module AppOauth.

Import Read.
Local Open Scope read_scope.

Record clientSecretItem := mkClientSecretItem {
  Status : string;
  Id : string;
  ClientSecret : string;
  LastUpdated : string
}.

(** The parts of [okta.OpenIdConnectApplication] the read touches.  The
    SDK declares the nested structures as pointers, which JSON decoding
    leaves nil when the server sends no such member: each is an option
    here, whether or not the function tests it against [nil]. *)
Record ApplicationVisibilityHide := mkHide {
  IOS : bool;
  Web : bool
}.

Record ApplicationVisibility := mkVisibility {
  AutoSubmitToolbar : bool;
  Hide : option ApplicationVisibilityHide
}.

Record IdpInitiatedLogin := mkIdpInitiatedLogin {
  DefaultScope : list string;
  Mode : string
}.

Record SettingsClient := mkSettingsClient {
  ApplicationType : string;
  ClientUri : string;
  LogoUri : string;
  InitiateLoginUri : string;
  PolicyUri : string;
  WildcardRedirect : string;
  ResponseTypes : list string;
  GrantTypes : list string;
  RedirectUris : list string;
  PostLogoutRedirectUris : list string;
  IdpInitiatedLogin_ : option IdpInitiatedLogin
}.

Record CredentialsOAuthClient := mkCredentialsOAuthClient {
  ClientId : string;
  Credentials_ClientSecret : string
}.

(** [app.Links] is an [interface{}] holding decoded JSON. *)
Local Unset Elimination Schemes.
Inductive JSON :=
| JNull
| JBool (b : bool)
| JNumber (n : Z)
| JString (s : string)
| JArray (l : list JSON)
| JObject (fields : list (string * JSON)).
Local Set Elimination Schemes.

Record ApplicationSettings := mkSettings {
  OauthClient : option SettingsClient
}.

Record ApplicationCredentials := mkCredentials {
  Cred_OauthClient : option CredentialsOAuthClient
}.

Record OpenIdConnectApplication := mkApp {
  App_Id : string;
  Label : string;
  Name : string;
  App_Status : string;
  Visibility : option ApplicationVisibility;
  Settings : option ApplicationSettings;
  Credentials : option ApplicationCredentials;
  Links : JSON
}.

(** [appFilters], the result of [getAppFilters]. *)
Record appFilters := mkAppFilters {
  ID : string;
  Filter_Label : string;
  LabelPrefix : string;
  Filter_Status : string
}.

(** The Okta client and its request executor, as far as the read calls
    them. *)
Record Client := mkClient {
  GetApplication : string -> OpenIdConnectApplication * option Go.error;
  NewRequest : string -> string -> option Go.error;
  Do_appList : string -> list OpenIdConnectApplication * option Go.error;
  Do_secretList : string -> list clientSecretItem * option Go.error;
  setAppUsersIDsAndGroupsIDs :
    schema.ResourceData -> string -> schema.ResourceData * option Go.error
}.

(** Helpers of the provider and of the standard library declared outside
    the file. *)
Record Helpers := mkHelpers {
  getAppFilters : schema.ResourceData -> appFilters * option Go.error;
  getQ : appFilters -> string;
  filters_String : appFilters -> string;
  Params_String : query.Params -> string;
  json_Marshal : JSON -> string
}.

(** The attribute map given to [buildSchema] in [dataSourceAppOauth]. *)
Definition dataSourceAppOauth : gmap string schema.Kind :=
  list_to_map
    [ ("id", schema.TypeString);
      ("label", schema.TypeString);
      ("label_prefix", schema.TypeString);
      ("active_only", schema.TypeBool);
      ("type", schema.TypeString);
      ("name", schema.TypeString);
      ("status", schema.TypeString);
      ("auto_submit_toolbar", schema.TypeBool);
      ("hide_ios", schema.TypeBool);
      ("hide_web", schema.TypeBool);
      ("grant_types", schema.TypeSet);
      ("response_types", schema.TypeSet);
      ("redirect_uris", schema.TypeSet);
      ("post_logout_redirect_uris", schema.TypeSet);
      ("logo_uri", schema.TypeString);
      ("login_uri", schema.TypeString);
      ("login_mode", schema.TypeString);
      ("login_scopes", schema.TypeSet);
      ("client_uri", schema.TypeString);
      ("client_id", schema.TypeString);
      ("client_secret", schema.TypeString);
      ("policy_uri", schema.TypeString);
      ("links", schema.TypeString);
      ("groups", schema.TypeSet);
      ("users", schema.TypeSet);
      ("wildcard_redirect", schema.TypeString) ].

Definition dSet := set_ dataSourceAppOauth.

(** Modelled from the spec: [setNonPrimitives], declared outside the
    file.  It sets each entry of the aggregate map as an attribute and
    fails on the first attribute that cannot be set.  The aggregate map
    is kept as the list of its entries, in the order the source writes
    them; its keys are distinct. *)
Fixpoint setNonPrimitives (valueMap : list (string * schema.Value))
    : M (option Go.error) :=
  match valueMap with
  | [] => ret None
  | (k, v) :: rest =>
      let* err := set dataSourceAppOauth k v in
      match err with
      | Some err => ret (Some ("error setting " +:+ k +:+ ": " +:+ err))
      | None => setNonPrimitives rest
      end
  end.

(** [qp := &query.Params{Limit: 1, Filter: filters.Status,
      Q: filters.getQ()}] and [fmt.Sprintf("/api/v1/apps%s", qp.String())] *)
Definition listAppsURL (h : Helpers) (filters : appFilters) : string :=
  let qp := {| query.Q := getQ h filters;
               query.Filter := Filter_Status filters;
               query.Search := "";
               query.Limit := 1;
               query.SortOrder := "" |} in
  "/api/v1/apps" +:+ Params_String h qp.

(** [fmt.Sprintf("/api/v1/apps/%s/credentials/secrets", app.Id)] *)
Definition secretsURL (appId : string) : string :=
  "/api/v1/apps/" +:+ appId +:+ "/credentials/secrets".

(** Lines 173-200: the application named by the filters. *)
Definition findApp (h : Helpers) (client : Client) (filters : appFilters)
    : M OpenIdConnectApplication :=
  if negb (String.eqb (ID filters) "") then
    let* '(respApp, err) :=
      io (GetApplication client (ID filters),
          [Request (ReqGetApplication (ID filters))]) in
    match err with
    | Some err => done (Errorf ("failed get app by ID: " +:+ err))
    | None => ret respApp
    end
  else
    let url := listAppsURL h filters in
    match NewRequest client "GET" url with
    | Some err => done (Errorf ("failed to list OAuth apps: " +:+ err))
    | None =>
        let* '(appList, err) :=
          io (Do_appList client url, [Request (ReqHTTP "GET" url)]) in
        match err with
        | Some err => done (Errorf ("failed to list OAuth apps: " +:+ err))
        | None =>
            match appList with
            | [] =>
                done (Errorf ("no OAuth application found with provided filter: "
                              +:+ filters_String h filters))
            | app0 :: _ =>
                if negb (String.eqb (Filter_Label filters) "")
                   && negb (String.eqb (Label app0) (Filter_Label filters))
                then
                  done (Errorf ("no OAuth application found with the provided label: "
                                +:+ Filter_Label filters))
                else
                  run* emit (LogInfo ["found multiple OAuth applications with the criteria supplied, using the first one, sorted by creation date"]) in
                  ret app0
            end
        end
    end.

(** [secretList[i]]: an index out of range panics. *)
Definition at_ (secretList : list clientSecretItem) (i : nat)
    : option clientSecretItem :=
  secretList !! i.

Definition isActive (s : clientSecretItem) : bool :=
  String.eqb (Status s) "ACTIVE".

(** [secretList[i].Status == "ACTIVE"] *)
Definition activeAt (secretList : list clientSecretItem) (i : nat)
    : option bool :=
  isActive <$> at_ secretList i.

(** [a && b]: [b] is evaluated only when [a] is true. *)
Definition andalso (a b : option bool) : option bool :=
  match a with
  | Some true => b
  | _ => a
  end.

(** Lines 218-231: "There can be only two client secrets. Choose the
    latest created one that is active".  [None] is a panic. *)
Definition selectClientSecret (secretList : list clientSecretItem)
    : option string :=
  let len := length secretList in
  if (0 <? len)%nat then
    match andalso (andalso (Some (1 <? len)%nat) (activeAt secretList 0))
                  (activeAt secretList 1) with
    | None => None
    | Some true =>
        match LastUpdated <$> at_ secretList 1,
              LastUpdated <$> at_ secretList 0 with
        | Some updated1, Some updated0 =>
            if Go.string_gt updated1 updated0
            then ClientSecret <$> at_ secretList 1
            else ClientSecret <$> at_ secretList 0
        | _, _ => None
        end
    | Some false =>
        match activeAt secretList 0 with
        | None => None
        | Some true => ClientSecret <$> at_ secretList 0
        | Some false =>
            match andalso (Some (1 <? len)%nat) (activeAt secretList 1) with
            | None => None
            | Some true => ClientSecret <$> at_ secretList 1
            | Some false => Some ""
            end
        end
    end
  else Some "".

(** Lines 205-232: the local [clientSecret]. *)
Definition fetchClientSecret (client : Client)
    (app : OpenIdConnectApplication) : P string :=
  let skipClientSecrets := false in
  if negb skipClientSecrets then
    let url := secretsURL (App_Id app) in
    match NewRequest client "GET" url with
    | Some err =>
        lift (done (Errorf ("failed to list OAuth client secrets: " +:+ err)))
    | None =>
        let! '(secretList, err) :=
          lift (io (Do_secretList client url, [Request (ReqHTTP "GET" url)])) in
        match err with
        | Some err =>
            lift (done (Errorf ("failed to list OAuth client secrets: "
                                +:+ err)))
        | None => orPanic (selectClientSecret secretList)
        end
    end
  else lift (ret "").

Import schema.

(** [_ = d.Set(key, v)] in a body that may panic. *)
Definition pSet (key : string) (v : Value) : P unit := lift (dSet key v).

(** Lines 234-284: the attributes of [d] set from [app].  An argument of
    [d.Set] is evaluated before the call, so a nil pointer on the way to
    it panics with the attribute not set.  A pointer read on several
    lines is dereferenced here where it is read first. *)
Definition flatten (h : Helpers) (app : OpenIdConnectApplication)
    : P Diagnostics :=
  run! lift (modify (SetId (App_Id app))) in
  run! pSet "label" (VString (Label app)) in
  run! pSet "name" (VString (Name app)) in
  run! pSet "status" (VString (App_Status app)) in
  let! visibility := orPanic (Visibility app) in
  run! pSet "auto_submit_toolbar" (VBool (AutoSubmitToolbar visibility)) in
  let! hide := orPanic (Hide visibility) in
  run! pSet "hide_ios" (VBool (IOS hide)) in
  run! pSet "hide_web" (VBool (Web hide)) in
  let! settings := orPanic (Settings app) in
  let! '(respTypes, grantTypes, redirectUris, postLogoutRedirectUris) :=
    (match OauthClient settings with
     | Some oc =>
         run! pSet "type" (VString (ApplicationType oc)) in
         run! pSet "client_uri" (VString (ClientUri oc)) in
         run! pSet "logo_uri" (VString (LogoUri oc)) in
         run! pSet "login_uri" (VString (InitiateLoginUri oc)) in
         let! credentials := orPanic (Credentials app) in
         let! credentialsClient := orPanic (Cred_OauthClient credentials) in
         run! pSet "client_id" (VString (ClientId credentialsClient)) in
         run! pSet "client_secret"
                   (VString (Credentials_ClientSecret credentialsClient)) in
         run! pSet "policy_uri" (VString (PolicyUri oc)) in
         run! pSet "wildcard_redirect" (VString (WildcardRedirect oc)) in
         lift (ret ([] ++ ResponseTypes oc, [] ++ GrantTypes oc,
                    [] ++ RedirectUris oc, [] ++ PostLogoutRedirectUris oc))
     | None => lift (ret ([], [], [], []))
     end) in
  let aggMap :=
    [ ("redirect_uris", VSet (convertStringSliceToSet redirectUris));
      ("response_types", VSet (convertStringSliceToSet respTypes));
      ("grant_types", VSet (convertStringSliceToSet grantTypes));
      ("post_logout_redirect_uris",
        VSet (convertStringSliceToSet postLogoutRedirectUris)) ] in
  let! aggMap :=
    (match OauthClient settings with
     | Some oc =>
         match IdpInitiatedLogin_ oc with
         | Some idp =>
             run! pSet "login_mode" (VString (Mode idp)) in
             lift (ret (aggMap ++
                        [("login_scopes",
                          VSet (convertStringSliceToSet (DefaultScope idp)))]))
         | None => lift (ret aggMap)
         end
     | None => lift (ret aggMap)
     end) in
  let! err := lift (setNonPrimitives aggMap) in
  match err with
  | Some err =>
      lift (done (Errorf ("failed to set OAuth application properties: "
                          +:+ err)))
  | None =>
      let p := json_Marshal h (Links app) in
      run! pSet "links" (VString p) in
      lift (done [])
  end.

Definition dataSourceAppOauthRead_body (h : Helpers) (client : Client)
    : P Diagnostics :=
  let! d := lift get in
  let '(filters, err) := getAppFilters h d in
  match err with
  | Some err => lift (done (Errorf ("invalid OAuth app filters: " +:+ err)))
  | None =>
      let! app := lift (findApp h client filters) in
      let! d := lift get in
      let '(d', err) := setAppUsersIDsAndGroupsIDs client d (App_Id app) in
      run! lift (emit (Request (ReqUsersAndGroups (App_Id app)))) in
      run! lift (modify (fun _ => d')) in
      match err with
      | Some err =>
          lift (done (Errorf ("failed to list OAuth's app groups and users: "
                              +:+ err)))
      | None =>
          let! clientSecret := fetchClientSecret client app in
          flatten h app
      end
  end.

(** The diagnostics the read returns and the state it leaves; [None] in
    place of the diagnostics when it panicked. *)
Definition dataSourceAppOauthRead (h : Helpers) (client : Client)
    (d : ResourceData) : option Diagnostics * State :=
  prun (dataSourceAppOauthRead_body h client) d.

(** *** Vocabulary of the properties *)

(** The structures [flatten] dereferences, when they are all there: the
    visibility and its hide part, the settings, and, when the settings
    hold an OAuth client, that client with the client of the
    credentials. *)
Record Parts := mkParts {
  p_visibility : ApplicationVisibility;
  p_hide : ApplicationVisibilityHide;
  p_client : option (SettingsClient * CredentialsOAuthClient)
}.

Definition parts (app : OpenIdConnectApplication) : option Parts :=
  match Visibility app with
  | None => None
  | Some visibility =>
      match Hide visibility, Settings app with
      | Some hide, Some settings =>
          match OauthClient settings with
          | None => Some (mkParts visibility hide None)
          | Some oc =>
              match Credentials app with
              | Some (mkCredentials (Some credentialsClient)) =>
                  Some (mkParts visibility hide (Some (oc, credentialsClient)))
              | _ => None
              end
          end
      | _, _ => None
      end
  end.

(** [app.Settings.OauthClient], as far as it can be reached. *)
Definition oauthClientOf (app : OpenIdConnectApplication)
    : option SettingsClient :=
  match Settings app with
  | Some settings => OauthClient settings
  | None => None
  end.





(** The flattening half of the specification's sentence, as it words it:
    an application without OAuth-client settings is flattened without
    error, and the links of every application end up in [links]. *)
Definition flattensEveryApplication : Prop :=
  forall (h : Helpers) (app : OpenIdConnectApplication) (s : State),
    (oauthClientOf app = None ->
     fst (flatten h app s) = Some (Done [])) /\
    rd_attrs (st_d (snd (flatten h app s))) !! "links"
      = Some (VString (json_Marshal h (Links app))).




(** *** Sample data *)

Definition str (d : ResourceData) (key : string) : string :=
  match rd_attrs d !! key with Some (VString s) => s | _ => "" end.

Definition sampleHelpers : Helpers :=
  {| getAppFilters := fun d =>
       (mkAppFilters (str d "id") (str d "label") (str d "label_prefix")
                     "status eq ACTIVE", None);
     getQ := fun f =>
       if String.eqb (Filter_Label f) "" then LabelPrefix f
       else Filter_Label f;
     filters_String := fun f =>
       "id: " +:+ ID f +:+ ", label: " +:+ Filter_Label f;
     Params_String := fun qp =>
       "?filter=" +:+ query.Filter qp +:+ "&limit="
       +:+ Go.Sprintf_d (query.Limit qp) +:+ "&q=" +:+ query.Q qp;
     json_Marshal := fun j =>
       match j with JNull => "null" | _ => "{}" end |}.

Definition webClient : SettingsClient :=
  {| ApplicationType := "web";
     ClientUri := "https://billing.example.com";
     LogoUri := "";
     InitiateLoginUri := "";
     PolicyUri := "";
     WildcardRedirect := "DISABLED";
     ResponseTypes := ["code"];
     GrantTypes := ["authorization_code"; "refresh_token"];
     RedirectUris := ["https://billing.example.com/callback"];
     PostLogoutRedirectUris := [];
     IdpInitiatedLogin_ := None |}.

Definition billing : OpenIdConnectApplication :=
  {| App_Id := "0oa1";
     Label := "billing-portal";
     Name := "oidc_client";
     App_Status := "ACTIVE";
     Visibility := Some (mkVisibility false (Some (mkHide false false)));
     Settings := Some (mkSettings (Some webClient));
     Credentials :=
       Some (mkCredentials
               (Some (mkCredentialsOAuthClient "0oa1" "embedded-secret")));
     Links := JObject [] |}.

(** The same label with a suffix: what a prefix query for
    "billing-portal" also matches. *)
Definition billingStaging : OpenIdConnectApplication :=
  {| App_Id := "0oa2";
     Label := "billing-portal-staging";
     Name := "oidc_client";
     App_Status := "ACTIVE";
     Visibility := Some (mkVisibility false (Some (mkHide false false)));
     Settings := Some (mkSettings None);
     Credentials := None;
     Links := JNull |}.

Definition olderSecret : clientSecretItem :=
  mkClientSecretItem "ACTIVE" "ocs1" "older-secret" "2023-12-31T23:59:59.000Z".

Definition newerSecret : clientSecretItem :=
  mkClientSecretItem "ACTIVE" "ocs2" "newer-secret" "2024-03-01T10:00:00.000Z".

Definition retiredSecret : clientSecretItem :=
  mkClientSecretItem "INACTIVE" "ocs0" "retired-secret" "2022-01-01T00:00:00.000Z".

Definition server (apps : list OpenIdConnectApplication)
    (secrets : list clientSecretItem) : Client :=
  {| GetApplication := fun _ => (billing, None);
     NewRequest := fun _ _ => None;
     Do_appList := fun _ => (apps, None);
     Do_secretList := fun _ => (secrets, None);
     setAppUsersIDsAndGroupsIDs := fun d _ => (d, None) |}.

Definition byLabel (label : string) : ResourceData :=
  mkResourceData "" {[ "label" := VString label ]}.

Definition byId (id : string) : ResourceData :=
  mkResourceData "" {[ "id" := VString id ]}.

Definition byPrefix (prefix : string) : ResourceData :=
  mkResourceData "" {[ "label_prefix" := VString prefix ]}.

(** No request can be built. *)
Definition offline : Client :=
  {| GetApplication := fun _ => (billing, Some "404 Not Found");
     NewRequest := fun _ _ => Some "parse: invalid URL";
     Do_appList := fun _ => ([], None);
     Do_secretList := fun _ => ([], None);
     setAppUsersIDsAndGroupsIDs := fun d _ => (d, None) |}.

(** Every request is answered with an error. *)
Definition erroring : Client :=
  {| GetApplication := fun _ => (billing, Some "404 Not Found");
     NewRequest := fun _ _ => None;
     Do_appList := fun _ => ([], Some "500 Internal Server Error");
     Do_secretList := fun _ => ([], Some "403 Forbidden");
     setAppUsersIDsAndGroupsIDs := fun d _ => (d, Some "429 Too Many Requests") |}.

(** Applications are found, their users and groups are recorded in [d],
    the secrets cannot be listed. *)
Definition secretsForbidden : Client :=
  {| GetApplication := fun _ => (billing, None);
     NewRequest := fun _ _ => None;
     Do_appList := fun _ => ([billing], None);
     Do_secretList := fun _ => ([newerSecret], Some "403 Forbidden");
     setAppUsersIDsAndGroupsIDs := fun d _ =>
       (mkResourceData (rd_id d)
          (<["users" := VSet {[ "00u1" ]}]> (rd_attrs d)), None) |}.

(** Applications are found, their users and groups cannot be listed. *)
Definition groupsThrottled : Client :=
  {| GetApplication := fun _ => (billing, None);
     NewRequest := fun _ _ => None;
     Do_appList := fun _ => ([billing], None);
     Do_secretList := fun _ => ([newerSecret], None);
     setAppUsersIDsAndGroupsIDs := fun d _ =>
       (d, Some "429 Too Many Requests") |}.



(** Decoded from an answer without the [settings] member. *)
Definition withoutSettings : OpenIdConnectApplication :=
  {| App_Id := "0oa4";
     Label := "legacy";
     Name := "oidc_client";
     App_Status := "ACTIVE";
     Visibility := Some (mkVisibility false (Some (mkHide false false)));
     Settings := None;
     Credentials := None;
     Links := JNull |}.

(** Decoded from an answer without the [visibility] member. *)
Definition withoutVisibility : OpenIdConnectApplication :=
  {| App_Id := "0oa5";
     Label := "headless";
     Name := "oidc_client";
     App_Status := "ACTIVE";
     Visibility := None;
     Settings := Some (mkSettings None);
     Credentials := None;
     Links := JNull |}.

End AppOauth.

(* ===================================================================== *)
(** ** [sdk/templates_email.go] *)
(* ===================================================================== *)

Module sdk.

Record SdkEmailTranslation := mkTranslation {
  Tr_Subject : string;
  Tr_Template : string
}.

Record SdkEmailTemplate := mkTemplate {
  Id : string;
  Name : string;
  Type_ : string;
  DefaultLanguage : string;
  Subject : string;
  Template : string;
  Translations : gmap string SdkEmailTranslation
}.

(** [*Response], as far as the file is concerned a value handed through. *)
Record Response := mkResponse {
  StatusCode : Z
}.

(** What [NewRequest] was asked to build. *)
Record Request := mkRequest {
  method : string;
  url : string;
  body : option SdkEmailTemplate
}.

(** [m.RequestExecutor]: [NewRequest(method, url, body)] gives a request
    and an error; [Do(ctx, req, &temp)] gives what it decoded into [temp]
    (nothing when it is given [nil]), the response and an error. *)
Record RequestExecutor := mkRequestExecutor {
  NewRequest :
    string -> string -> option SdkEmailTemplate -> Request * option Go.error;
  Do : Request ->
       option SdkEmailTemplate * option Response * option Go.error
}.

(** The receiver [m], with the [String] method of the sdk's
    [query.Params], which is declared outside the file. *)
Record APISupplement := mkAPISupplement {
  Executor : RequestExecutor;
  Params_String : query.Params -> string
}.

(** [http.MethodPost] and the like. *)
Definition MethodPost : string := "POST".
Definition MethodPut : string := "PUT".
Definition MethodGet : string := "GET".
Definition MethodDelete : string := "DELETE".

(** A call's results, and the requests it handed to [Do], in order. *)
Definition Sent (A : Type) : Type := A * list Request.

(** [if qp != nil { url += qp.String() }] *)
Definition withParams (m : APISupplement) (url : string)
    (qp : option query.Params) : string :=
  match qp with
  | Some qp => url +:+ Params_String m qp
  | None => url
  end.

Definition CreateEmailTemplate (m : APISupplement) (body : SdkEmailTemplate)
    (qp : option query.Params)
    : Sent (option SdkEmailTemplate * option Response * option Go.error) :=
  let url := "/api/v1/templates/emails" in
  let url := withParams m url qp in
  let '(req, err) := NewRequest (Executor m) MethodPost url (Some body) in
  match err with
  | Some err => ((None, None, Some err), [])
  | None =>
      let '(temp, resp, err) := Do (Executor m) req in
      match err with
      | Some err => ((None, resp, Some err), [req])
      | None => ((temp, resp, err), [req])
      end
  end.

Definition UpdateEmailTemplate (m : APISupplement) (id : string)
    (body : SdkEmailTemplate) (qp : option query.Params)
    : Sent (option SdkEmailTemplate * option Response * option Go.error) :=
  let url := "/api/v1/templates/emails/" +:+ id in
  let url := withParams m url qp in
  let '(req, err) := NewRequest (Executor m) MethodPut url (Some body) in
  match err with
  | Some err => ((None, None, Some err), [])
  | None =>
      let '(temp, resp, err) := Do (Executor m) req in
      match err with
      | Some err => ((None, resp, Some err), [req])
      | None => ((temp, resp, err), [req])
      end
  end.

Definition GetEmailTemplate (m : APISupplement) (id : string)
    : Sent (option SdkEmailTemplate * option Response * option Go.error) :=
  let url := "/api/v1/templates/emails/" +:+ id in
  let '(req, err) := NewRequest (Executor m) MethodGet url None in
  match err with
  | Some err => ((None, None, Some err), [])
  | None =>
      let '(temp, resp, err) := Do (Executor m) req in
      match err with
      | Some err => ((None, resp, Some err), [req])
      | None => ((temp, resp, err), [req])
      end
  end.

(** [Do(ctx, req, nil)]: nothing is decoded. *)
Definition DeleteEmailTemplate (m : APISupplement) (id : string)
    : Sent (option Response * option Go.error) :=
  let url := "/api/v1/templates/emails/" +:+ id in
  let '(req, err) := NewRequest (Executor m) MethodDelete url None in
  match err with
  | Some err => ((None, Some err), [])
  | None =>
      let '(_, resp, err) := Do (Executor m) req in
      ((resp, err), [req])
  end.

(** *** Vocabulary of the properties *)

(** What the three template-returning calls have in common, for whatever
    the executor answers. *)
Definition wellFormed
    (r : Sent (option SdkEmailTemplate * option Response * option Go.error))
    : Prop :=
  let '((temp, resp, err), sent) := r in
  (length sent <= 1)%nat /\
  (err <> None -> temp = None) /\
  (sent = [] -> resp = None /\ err <> None).



(** *** Sample data *)

Definition welcome : SdkEmailTemplate :=
  {| Id := "oet1";
     Name := "Welcome";
     Type_ := "email.welcome";
     DefaultLanguage := "en";
     Subject := "Welcome aboard";
     Template := "<p>Hello</p>";
     Translations := {[ "de" := mkTranslation "Willkommen" "<p>Hallo</p>" ]} |}.


(** Decodes an error body into [temp], then reports the failure. *)
Definition rejecting : RequestExecutor :=
  {| NewRequest := fun method url body => (mkRequest method url body, None);
     Do := fun _ => (Some welcome, Some (mkResponse 404),
                     Some "404 Not Found") |}.

(** Cannot build requests. *)
Definition unconfigured : RequestExecutor :=
  {| NewRequest := fun method url body =>
       (mkRequest method url body, Some "missing org URL");
     Do := fun _ => (Some welcome, Some (mkResponse 200), None) |}.


End sdk.

(* ===================================================================== *)
(** ** Properties of the Go primitives *)
(* ===================================================================== *)

Lemma string_lt_gt (a b : string) :
  Go.string_lt a b = true <-> Go.string_gt b a = true.
Proof.
  unfold Go.string_lt, Go.string_gt.
  rewrite (String.compare_antisym a b).
  destruct (String.compare b a); simpl; split; congruence.
Qed.

Lemma string_gt_irrefl (a : string) : Go.string_gt a a = false.
Proof.
  unfold Go.string_gt.
  pose proof (String.compare_antisym a a) as H.
  destruct (String.compare a a); simpl in H; congruence.
Qed.

Lemma string_gt_asym (a b : string) :
  Go.string_gt a b = true -> Go.string_gt b a = false.
Proof.
  unfold Go.string_gt.
  rewrite (String.compare_antisym a b).
  destruct (String.compare b a); simpl; congruence.
Qed.

(* ===================================================================== *)
(** ** The client-secret selection *)
(* ===================================================================== *)

Section ClientSecret.

Import AppOauth.

Lemma isActive_true (s : clientSecretItem) :
  Status s = "ACTIVE" -> isActive s = true.
Proof. intros H. unfold isActive. rewrite H. reflexivity. Qed.

Lemma isActive_false (s : clientSecretItem) :
  Status s <> "ACTIVE" -> isActive s = false.
Proof.
  intros H. unfold isActive.
  destruct (String.eqb (Status s) "ACTIVE") eqn:E; [|reflexivity].
  apply String.eqb_eq in E. contradiction.
Qed.

(** With two entries or more, the selection reads the first two only. *)
Lemma selectClientSecret_cons2 (a b : clientSecretItem)
    (rest : list clientSecretItem) :
  selectClientSecret (a :: b :: rest) =
    Some (if isActive a && isActive b
          then if Go.string_gt (LastUpdated b) (LastUpdated a)
               then ClientSecret b else ClientSecret a
          else if isActive a then ClientSecret a
          else if isActive b then ClientSecret b
          else "").
Proof.
  unfold selectClientSecret, activeAt, at_. cbn.
  destruct (isActive a), (isActive b); cbn; try reflexivity.
  by destruct (Go.string_gt (LastUpdated b) (LastUpdated a)).
Qed.

Lemma selectClientSecret_one (a : clientSecretItem) :
  selectClientSecret [a] = Some (if isActive a then ClientSecret a else "").
Proof.
  unfold selectClientSecret, activeAt, at_. cbn.
  by destruct (isActive a).
Qed.

(** No ACTIVE entry among the first two: the empty string. *)
Lemma selectClientSecret_none_active (l : list clientSecretItem) :
  Forall (fun s => Status s <> "ACTIVE") l -> selectClientSecret l = Some "".
Proof.
  intros H. destruct l as [|a [|b rest]]; [reflexivity| |].
  - rewrite selectClientSecret_one.
    rewrite isActive_false; [reflexivity|]. by inversion H.
  - rewrite selectClientSecret_cons2.
    inversion H as [|? ? Ha H']; subst. inversion H' as [|? ? Hb _]; subst.
    rewrite (isActive_false a Ha), (isActive_false b Hb). reflexivity.
Qed.

(** The guards keep every index within the list. *)
Lemma selectClientSecret_returns (l : list clientSecretItem) :
  exists secret, selectClientSecret l = Some secret.
Proof.
  destruct l as [|a [|b rest]].
  - by exists "".
  - rewrite selectClientSecret_one. eauto.
  - rewrite selectClientSecret_cons2. eauto.
Qed.

End ClientSecret.

(** C2: of two ACTIVE entries with timestamps T1 < T2 (as Go compares
    strings) the one carrying T2 is selected, in whichever position it is;
    when exactly one of the two entries is ACTIVE, it is the one selected,
    in whichever position it is. *)
Theorem selectClientSecret_two (a b : AppOauth.clientSecretItem) :
  (AppOauth.Status a = "ACTIVE" -> AppOauth.Status b = "ACTIVE" ->
   Go.string_lt (AppOauth.LastUpdated a) (AppOauth.LastUpdated b) = true ->
   AppOauth.selectClientSecret [a; b] = Some (AppOauth.ClientSecret b) /\
   AppOauth.selectClientSecret [b; a] = Some (AppOauth.ClientSecret b)) /\
  (AppOauth.Status a = "ACTIVE" -> AppOauth.Status b <> "ACTIVE" ->
   AppOauth.selectClientSecret [a; b] = Some (AppOauth.ClientSecret a) /\
   AppOauth.selectClientSecret [b; a] = Some (AppOauth.ClientSecret a)).
Proof.
  split.
  - intros Ha Hb Hlt.
    rewrite !selectClientSecret_cons2.
    rewrite (isActive_true a Ha), (isActive_true b Hb). simpl.
    apply string_lt_gt in Hlt. rewrite Hlt.
    rewrite (string_gt_asym _ _ Hlt). split; reflexivity.
  - intros Ha Hb.
    rewrite !selectClientSecret_cons2.
    rewrite (isActive_true a Ha), (isActive_false b Hb). simpl.
    split; reflexivity.
Qed.

(** C10: two ACTIVE entries with equal timestamps: the first one is
    selected; entries after the second are never read, so when neither of
    the first two is ACTIVE nothing is selected, whatever follows. *)
Theorem selectClientSecret_tie_and_prefix :
  (forall (a b : AppOauth.clientSecretItem) rest,
      AppOauth.Status a = "ACTIVE" -> AppOauth.Status b = "ACTIVE" ->
      AppOauth.LastUpdated a = AppOauth.LastUpdated b ->
      AppOauth.selectClientSecret (a :: b :: rest)
      = Some (AppOauth.ClientSecret a)) /\
  (forall (a b : AppOauth.clientSecretItem) rest,
      AppOauth.selectClientSecret (a :: b :: rest) =
      AppOauth.selectClientSecret [a; b]) /\
  (forall (a b : AppOauth.clientSecretItem) rest,
      AppOauth.Status a <> "ACTIVE" -> AppOauth.Status b <> "ACTIVE" ->
      AppOauth.selectClientSecret (a :: b :: rest) = Some "").
Proof.
  split; [|split].
  - intros a b rest Ha Hb Heq.
    rewrite selectClientSecret_cons2.
    rewrite (isActive_true a Ha), (isActive_true b Hb). simpl.
    rewrite Heq, string_gt_irrefl. reflexivity.
  - intros a b rest. rewrite !selectClientSecret_cons2. reflexivity.
  - intros a b rest Ha Hb.
    rewrite selectClientSecret_cons2.
    rewrite (isActive_false a Ha), (isActive_false b Hb). reflexivity.
Qed.

(* ===================================================================== *)
(** ** The paginated fetch *)
(* ===================================================================== *)

Section CollectUsers.

Import Users.

Lemma appendEach_app (nextUsers users : list User) :
  appendEach users nextUsers = users ++ nextUsers.
Proof.
  unfold appendEach. revert users.
  induction nextUsers as [|u rest IH]; intros users; simpl.
  - by rewrite app_nil_r.
  - rewrite IH, <- app_assoc. reflexivity.
Qed.

(** The loop is left as soon as there is no next page. *)
Lemma followPages_last (resp : Response) (users : list User) :
  HasNextPage resp = false -> followPages users resp = io_ret (users, None).
Proof. by destruct resp. Qed.

(** A chain without a failing page: everything is appended, one request
    per page. *)
Lemma followPages_complete (resp : Response) :
  failureOf resp = None ->
  forall users,
    followPages users resp =
      ((users ++ concat (pagesOf resp), None),
       repeat (Request ReqNextPage) (length (pagesOf resp))).
Proof.
  induction resp as [|nextUsers resp IH|err]; intros Hok users; simpl.
  - by rewrite app_nil_r.
  - unfold io_bind, io_emit. rewrite (IH Hok), appendEach_app, <- app_assoc.
    reflexivity.
  - discriminate.
Qed.

(** A chain ending in a failing page: the error, and the nil slice. *)
Lemma followPages_fail_fast (resp : Response) (err : Go.error) :
  failureOf resp = Some err ->
  forall users, fst (followPages users resp) = ([], Some err).
Proof.
  induction resp as [|nextUsers resp IH|err']; intros Hfail users; simpl.
  - discriminate.
  - unfold io_bind, io_emit.
    specialize (IH Hfail (appendEach users nextUsers)).
    destruct (followPages (appendEach users nextUsers) resp) as [r t].
    exact IH.
  - simpl in Hfail. congruence.
Qed.

(** The loop only asks for next pages. *)
Lemma followPages_trace (resp : Response) (users : list User) :
  Forall (fun e => e = Request ReqNextPage) (snd (followPages users resp)).
Proof.
  revert users.
  induction resp as [|nextUsers resp IH|err]; intros users; simpl.
  - constructor.
  - unfold io_bind, io_emit.
    specialize (IH (appendEach users nextUsers)).
    destruct (followPages (appendEach users nextUsers) resp) as [r t].
    simpl in *. by constructor.
  - repeat constructor.
Qed.

End CollectUsers.

(** C4: when the first request and every following page succeed,
    [collectUsers] returns the records of all pages, page after page and in
    their order within each page, and no error; it has issued one request
    per page. *)
Theorem collectUsers_all_pages (client : Users.Client) (qp : query.Params)
    (first : list Users.User) (resp : Users.Response) :
  Users.ListUsers client qp = (first, resp, None) ->
  Users.failureOf resp = None ->
  fst (Users.collectUsers client qp)
    = (concat (first :: Users.pagesOf resp), None) /\
  snd (Users.collectUsers client qp)
    = Request (ReqListUsers qp)
        :: repeat (Request ReqNextPage) (length (Users.pagesOf resp)).
Proof.
  intros Hfirst Hok. unfold Users.collectUsers, io_bind, io_emit.
  rewrite Hfirst. rewrite (followPages_complete resp Hok first).
  split; reflexivity.
Qed.

Lemma collectUsers_all_pages_witness :
  fst (Users.collectUsers Users.threePages (Users.searchParams Users.sampleHelpers (Users.config [])))
    = ([Users.alice; Users.bob; Users.carol], None) /\
  snd (Users.collectUsers Users.threePages (Users.searchParams Users.sampleHelpers (Users.config [])))
    = [Request (ReqListUsers (Users.searchParams Users.sampleHelpers (Users.config [])));
       Request ReqNextPage; Request ReqNextPage].
Proof.
  exact (collectUsers_all_pages Users.threePages
           (Users.searchParams Users.sampleHelpers (Users.config []))
           [Users.alice]
           (Users.NextOk [Users.bob] (Users.NextOk [Users.carol] Users.LastPage))
           eq_refl eq_refl).
Defined.

(** C5: when the first request fails, or a later page does, [collectUsers]
    returns that error together with the nil slice: nothing of what the
    earlier pages delivered is returned. *)
Theorem collectUsers_fail_fast (client : Users.Client) (qp : query.Params) :
  (forall users resp err,
      Users.ListUsers client qp = (users, resp, Some err) ->
      fst (Users.collectUsers client qp) = ([], Some err)) /\
  (forall first resp err,
      Users.ListUsers client qp = (first, resp, None) ->
      Users.failureOf resp = Some err ->
      fst (Users.collectUsers client qp) = ([], Some err)).
Proof.
  split.
  - intros users resp err H. unfold Users.collectUsers, io_bind, io_emit.
    rewrite H. reflexivity.
  - intros first resp err H Hfail.
    unfold Users.collectUsers, io_bind, io_emit. rewrite H.
    pose proof (followPages_fail_fast resp err Hfail first) as Hf.
    destruct (Users.followPages first resp) as [r t]. exact Hf.
Qed.

Lemma collectUsers_fail_fast_witness :
  fst (Users.collectUsers Users.thirdPageFails
         (Users.searchParams Users.sampleHelpers (Users.config [])))
    = ([], Some "502 Bad Gateway").
Proof.
  exact (proj2 (collectUsers_fail_fast Users.thirdPageFails
                  (Users.searchParams Users.sampleHelpers (Users.config [])))
           [Users.alice]
           (Users.NextOk [Users.bob] (Users.NextErr "502 Bad Gateway"))
           "502 Bad Gateway" eq_refl eq_refl).
Defined.

(* ===================================================================== *)
(** ** Laws of the read functions' effects *)
(* ===================================================================== *)

Section ReadLaws.

Import Read.
Context {A B : Type}.

Lemma traced_ret (P : Event -> Prop) (a : A) : traced P (ret a).
Proof. intros s. exists []. simpl. by rewrite app_nil_r. Qed.

Lemma traced_done (P : Event -> Prop) (diags : Diagnostics) :
  traced P (@done A diags).
Proof. intros s. exists []. simpl. by rewrite app_nil_r. Qed.

Lemma traced_io (P : Event -> Prop) (m : IO A) :
  Forall P (snd m) -> traced P (io m).
Proof. intros H s. exists (snd m). simpl. done. Qed.

Lemma traced_bind (P : Event -> Prop) (m : M A) (f : A -> M B) :
  traced P m -> (forall a, traced P (f a)) -> traced P (bind m f).
Proof.
  intros Hm Hf s. unfold bind.
  destruct (Hm s) as (evs1 & E1 & F1).
  destruct (m s) as [[diags|a] s1]; simpl in *.
  - by exists evs1.
  - destruct (Hf a s1) as (evs2 & E2 & F2).
    exists (evs1 ++ evs2). rewrite E2, E1, app_assoc. split; [done|].
    by apply Forall_app.
Qed.

Lemma keepsId_ret (a : A) : keepsId (ret a).
Proof. by intros s. Qed.

Lemma keepsId_done (diags : Diagnostics) : keepsId (@done A diags).
Proof. by intros s. Qed.

Lemma keepsId_io (m : IO A) : keepsId (io m).
Proof. by intros s. Qed.

Lemma keepsId_bind (m : M A) (f : A -> M B) :
  keepsId m -> (forall a, keepsId (f a)) -> keepsId (bind m f).
Proof.
  intros Hm Hf s. unfold bind. specialize (Hm s).
  destruct (m s) as [[diags|a] s1]; simpl in *; [done|].
  by rewrite (Hf a s1).
Qed.

End ReadLaws.

Section ReadLawsState.

Import Read.

Lemma traced_get (P : Event -> Prop) : traced P get.
Proof. intros s. exists []. simpl. by rewrite app_nil_r. Qed.

Lemma traced_modify (P : Event -> Prop) f : traced P (modify f).
Proof. intros s. exists []. simpl. by rewrite app_nil_r. Qed.

Lemma traced_emit (P : Event -> Prop) (e : Event) : P e -> traced P (emit e).
Proof. intros H. apply traced_io. simpl. by constructor. Qed.

Lemma traced_set (P : Event -> Prop) sch key v : traced P (set sch key v).
Proof.
  intros s. exists []. unfold set.
  destruct (schema.Set_ sch key v (st_d s)). simpl. by rewrite app_nil_r.
Qed.

Lemma traced_set_ (P : Event -> Prop) sch key v : traced P (set_ sch key v).
Proof.
  apply traced_bind; [apply traced_set|intros; apply traced_ret].
Qed.

Lemma keepsId_get : keepsId get.
Proof. by intros s. Qed.

Lemma keepsId_set sch key v : keepsId (set sch key v).
Proof.
  intros s. unfold set, schema.Set_.
  destruct (sch !! key) as [k|]; [destruct (schema.compatible k v)|]; done.
Qed.

Lemma keepsId_set_ sch key v : keepsId (set_ sch key v).
Proof.
  apply keepsId_bind; [apply keepsId_set|intros; apply keepsId_ret].
Qed.

End ReadLawsState.

(* ===================================================================== *)
(** ** The users read *)
(* ===================================================================== *)

Section UsersRead.

Import Read Users.

Variable h : Helpers.
Variable client : Client.

Lemma followUp_quiet (evs : list Event) :
  Forall followUp evs ->
  Forall (fun e => isRequest e = true) evs /\ List.filter isQuery evs = [].
Proof.
  induction 1 as [|e evs [Hr Hq] _ [IH1 IH2]]; [by split|].
  split; [by constructor|]. simpl. by rewrite Hq.
Qed.

Lemma flattenEach_traced (g r : bool) (users : list User) :
  traced followUp (flattenEach h client g r users).
Proof.
  induction users as [|user rest IH]; simpl; [apply traced_ret|].
  apply traced_bind.
  { destruct g; [|apply traced_ret].
    apply traced_bind; [apply traced_io; by repeat constructor|].
    intros [groups [err|]]; [apply traced_done|apply traced_ret]. }
  intros rawMap. apply traced_bind.
  { destruct r; [|apply traced_ret].
    apply traced_bind; [apply traced_io; by repeat constructor|].
    intros [roles [err|]]; [apply traced_done|apply traced_ret]. }
  intros rawMap'. apply traced_bind; [exact IH|intros; apply traced_ret].
Qed.

Lemma flattenEach_keepsId (g r : bool) (users : list User) :
  keepsId (flattenEach h client g r users).
Proof.
  induction users as [|user rest IH]; simpl; [apply keepsId_ret|].
  apply keepsId_bind.
  { destruct g; [|apply keepsId_ret].
    apply keepsId_bind; [apply keepsId_io|].
    intros [groups [err|]]; [apply keepsId_done|apply keepsId_ret]. }
  intros rawMap. apply keepsId_bind.
  { destruct r; [|apply keepsId_ret].
    apply keepsId_bind; [apply keepsId_io|].
    intros [roles [err|]]; [apply keepsId_done|apply keepsId_ret]. }
  intros rawMap'. apply keepsId_bind; [exact IH|intros; apply keepsId_ret].
Qed.

Lemma setUsers_traced (users : list User) :
  traced followUp (setUsers h client users).
Proof.
  unfold setUsers. apply traced_bind; [apply traced_get|intros d].
  apply traced_bind; [apply flattenEach_traced|intros arr].
  apply traced_bind; [apply traced_set_|intros; apply traced_done].
Qed.

Lemma setUsers_keepsId (users : list User) :
  keepsId (setUsers h client users).
Proof.
  unfold setUsers. apply keepsId_bind; [apply keepsId_get|intros d].
  apply keepsId_bind; [apply flattenEach_keepsId|intros arr].
  apply keepsId_bind; [apply keepsId_set_|intros; apply keepsId_done].
Qed.

Lemma collectUsers_events (qp : query.Params) :
  exists t, snd (collectUsers client qp) = Request (ReqListUsers qp) :: t
            /\ Forall followUp t.
Proof.
  unfold collectUsers, io_bind, io_emit.
  destruct (ListUsers client qp) as [[users resp] [err|]].
  - exists []. by split.
  - pose proof (followPages_trace resp users) as Ht.
    destruct (followPages users resp) as [res t]. exists t. split; [done|].
    simpl in Ht. eapply Forall_impl; [exact Ht|].
    intros e ->. by split.
Qed.

(** After the first block: one listing request at most, the one of the
    selector, then follow-up requests only. *)
Lemma listAndFlatten_requests (s : State) :
  exists evs,
    st_trace (snd (listAndFlatten h client s)) = st_trace s ++ evs /\
    Forall (fun e => isRequest e = true) evs /\
    List.filter isQuery evs = selectorQueries h (st_d s).
Proof.
  unfold listAndFlatten, listUsers, selectorQueries, bind, get. simpl.
  destruct (GetOkString (st_d s) "group_id") as [groupId|].
  - simpl. destruct (listGroupUsers client groupId) as [users [err|]]; simpl.
    + exists [Request (ReqListGroupUsers groupId)]. by repeat constructor.
    + match goal with |- context [setUsers h client users ?s1] =>
        destruct (setUsers_traced users s1) as (evs & E & F) end.
      apply followUp_quiet in F as [F1 F2].
      exists (Request (ReqListGroupUsers groupId) :: evs).
      rewrite E. simpl. rewrite <- app_assoc, F2. by repeat constructor.
  - destruct (schema.GetOk (st_d s) "search") as [v|]; simpl.
    + destruct (collectUsers_events (searchParams h (st_d s)))
        as (t & Et & Ft).
      destruct (collectUsers client (searchParams h (st_d s)))
        as [[users [err|]] t'] eqn:Ec; simpl in *; subst t'.
      * apply followUp_quiet in Ft as [F1 F2].
        eexists. split; [reflexivity|]. simpl. rewrite F2.
        by repeat constructor.
      * match goal with |- context [setUsers h client users ?s1] =>
          destruct (setUsers_traced users s1) as (evs & E & F) end.
        apply followUp_quiet in Ft as [F1 F2].
        apply followUp_quiet in F as [F3 F4].
        exists ((Request (ReqListUsers (searchParams h (st_d s))) :: t) ++ evs).
        rewrite E. simpl. rewrite <- app_assoc. split; [done|].
        rewrite List.filter_app, F2, F4. split; [|done].
        constructor; [done|]. by apply Forall_app.
    + exists []. rewrite app_nil_r. by repeat constructor.
Qed.

Lemma delayRead_events (d : schema.ResourceData) (s : State) :
  delayRead d s = (Next tt, mkState (st_d s) (st_trace s ++ delayEvents d)).
Proof.
  unfold delayRead, delayEvents.
  destruct (GetOkString d "delay_read_seconds") as [n|].
  - destruct (Go.Atoi n) as [delay|]; [|reflexivity].
    unfold bind, emit, io, io_emit. simpl. by rewrite <- app_assoc.
  - destruct s as [d0 t]. unfold ret. simpl. by rewrite app_nil_r.
Qed.

Lemma delayEvents_quiet (d : schema.ResourceData) :
  List.filter isRequest (delayEvents d) = [] /\
  List.filter isQuery (delayEvents d) = [].
Proof.
  unfold delayEvents.
  destruct (GetOkString d "delay_read_seconds") as [n|]; [|done].
  by destruct (Go.Atoi n).
Qed.

(** The read is its first block followed by the rest. *)
Lemma dataSourceUsersRead_unfold (d : schema.ResourceData) :
  dataSourceUsersRead h client d =
    finish (listAndFlatten h client (mkState d (delayEvents d))).
Proof.
  unfold dataSourceUsersRead, run, dataSourceUsersRead_body.
  unfold bind at 1. unfold get at 1. unfold bind at 1.
  by rewrite delayRead_events.
Qed.

Lemma finish_snd (r : Step Diagnostics * State) : snd (finish r) = snd r.
Proof. by destruct r as [[?|?] ?]. Qed.

(** On the search path, once the listing succeeded, the identifier is
    the checksum of the query string. *)
Lemma listAndFlatten_search_id (s : State) :
  GetOkString (st_d s) "group_id" = None ->
  is_Some (schema.GetOk (st_d s) "search") ->
  snd (fst (collectUsers client (searchParams h (st_d s)))) = None ->
  schema.rd_id (st_d (snd (listAndFlatten h client s)))
    = searchId h (searchParams h (st_d s)).
Proof.
  intros Hg [v Hs] Hok.
  unfold listAndFlatten, listUsers, bind, get. simpl. rewrite Hg, Hs. simpl.
  destruct (collectUsers client (searchParams h (st_d s)))
    as [[users err] t]; simpl in *; subst err.
  by rewrite setUsers_keepsId.
Qed.

End UsersRead.

(** C6: two search reads, possibly against different servers and from
    different configurations, whose parameters print as the same query
    string and whose listings succeed, leave the same identifier in [d]:
    the decimal CRC-32 of that string. *)
Theorem users_search_id_deterministic (h : Users.Helpers)
    (client1 client2 : Users.Client) (d1 d2 : schema.ResourceData) :
  Users.GetOkString d1 "group_id" = None ->
  Users.GetOkString d2 "group_id" = None ->
  is_Some (schema.GetOk d1 "search") ->
  is_Some (schema.GetOk d2 "search") ->
  Users.Params_String h (Users.searchParams h d1)
    = Users.Params_String h (Users.searchParams h d2) ->
  snd (fst (Users.collectUsers client1 (Users.searchParams h d1))) = None ->
  snd (fst (Users.collectUsers client2 (Users.searchParams h d2))) = None ->
  schema.rd_id (Read.st_d (snd (Users.dataSourceUsersRead h client1 d1)))
    = schema.rd_id (Read.st_d (snd (Users.dataSourceUsersRead h client2 d2))) /\
  schema.rd_id (Read.st_d (snd (Users.dataSourceUsersRead h client1 d1)))
    = Go.Sprintf_d
        (crc32.ChecksumIEEE
           (Go.bytes (Users.Params_String h (Users.searchParams h d1)))).
Proof.
  intros Hg1 Hg2 Hs1 Hs2 Hqs Hok1 Hok2.
  rewrite !dataSourceUsersRead_unfold, !finish_snd.
  rewrite (listAndFlatten_search_id h client1 (Read.mkState d1 _) Hg1 Hs1 Hok1).
  rewrite (listAndFlatten_search_id h client2 (Read.mkState d2 _) Hg2 Hs2 Hok2).
  unfold Users.searchId. simpl. rewrite Hqs. split; reflexivity.
Qed.

(** C8: with neither selector set the read returns the configuration error
    and issues no request; with [group_id] alone it issues exactly one
    listing request, the one by group; with [search] alone exactly one,
    the one by search parameters. *)
Theorem users_selector (h : Users.Helpers) (client : Users.Client)
    (d : schema.ResourceData) :
  (Users.GetOkString d "group_id" = None -> schema.GetOk d "search" = None ->
   fst (Users.dataSourceUsersRead h client d)
     = Errorf "must specify either group_id or search attributes" /\
   List.filter isRequest
     (Read.st_trace (snd (Users.dataSourceUsersRead h client d))) = []) /\
  (forall groupId,
      Users.GetOkString d "group_id" = Some groupId ->
      schema.GetOk d "search" = None ->
      List.filter Users.isQuery
        (Read.st_trace (snd (Users.dataSourceUsersRead h client d)))
        = [Request (ReqListGroupUsers groupId)]) /\
  (Users.GetOkString d "group_id" = None ->
   is_Some (schema.GetOk d "search") ->
   List.filter Users.isQuery
     (Read.st_trace (snd (Users.dataSourceUsersRead h client d)))
     = [Request (ReqListUsers (Users.searchParams h d))]).
Proof.
  rewrite dataSourceUsersRead_unfold, finish_snd.
  destruct (delayEvents_quiet d) as [Qr Qq].
  split; [|split].
  - intros Hg Hs.
    unfold Users.listAndFlatten, Users.listUsers, Read.bind, Read.get.
    simpl. rewrite Hg, Hs. simpl. by split.
  - intros groupId Hg Hs.
    destruct (listAndFlatten_requests h client (Read.mkState d (Users.delayEvents d)))
      as (evs & E & _ & Q).
    rewrite E. simpl. rewrite List.filter_app, Qq, Q.
    unfold Users.selectorQueries. simpl. by rewrite Hg.
  - intros Hg [v Hs].
    destruct (listAndFlatten_requests h client (Read.mkState d (Users.delayEvents d)))
      as (evs & E & _ & Q).
    rewrite E. simpl. rewrite List.filter_app, Qq, Q.
    unfold Users.selectorQueries. simpl. by rewrite Hg, Hs.
Qed.

Lemma users_search_id_deterministic_witness :
  schema.rd_id (Read.st_d (snd (Users.dataSourceUsersRead
                                  Users.sampleHelpers Users.threePages Users.bySearch)))
    = schema.rd_id (Read.st_d (snd (Users.dataSourceUsersRead
                                      Users.sampleHelpers Users.onePage
                                      Users.bySearchWithGroups))) /\
  schema.rd_id (Read.st_d (snd (Users.dataSourceUsersRead
                                  Users.sampleHelpers Users.threePages Users.bySearch)))
    = Go.Sprintf_d
        (crc32.ChecksumIEEE
           (Go.bytes (Users.Params_String Users.sampleHelpers
                        (Users.searchParams Users.sampleHelpers Users.bySearch)))).
Proof.
  apply (users_search_id_deterministic Users.sampleHelpers
           Users.threePages Users.onePage Users.bySearch Users.bySearchWithGroups).
  - vm_compute. reflexivity.
  - vm_compute. reflexivity.
  - vm_compute. eexists. reflexivity.
  - vm_compute. eexists. reflexivity.
  - reflexivity.
  - reflexivity.
  - reflexivity.
Defined.

Lemma users_selector_witness :
  (fst (Users.dataSourceUsersRead Users.sampleHelpers Users.threePages Users.noSelector)
     = Errorf "must specify either group_id or search attributes" /\
   List.filter isRequest
     (Read.st_trace (snd (Users.dataSourceUsersRead
                            Users.sampleHelpers Users.threePages Users.noSelector))) = []) /\
  List.filter Users.isQuery
    (Read.st_trace (snd (Users.dataSourceUsersRead
                           Users.sampleHelpers Users.threePages Users.byGroup)))
    = [Request (ReqListGroupUsers "00g1")] /\
  List.filter Users.isQuery
    (Read.st_trace (snd (Users.dataSourceUsersRead
                           Users.sampleHelpers Users.threePages Users.bySearch)))
    = [Request (ReqListUsers (Users.searchParams Users.sampleHelpers Users.bySearch))].
Proof.
  split; [|split].
  - apply (users_selector Users.sampleHelpers Users.threePages Users.noSelector);
      vm_compute; reflexivity.
  - apply (users_selector Users.sampleHelpers Users.threePages Users.byGroup);
      vm_compute; reflexivity.
  - apply (users_selector Users.sampleHelpers Users.threePages Users.bySearch).
    + vm_compute. reflexivity.
    + vm_compute. eexists. reflexivity.
Defined.

Lemma wrap64_small (z : Z) : - 2 ^ 63 <= z < 2 ^ 63 -> Go.wrap64 z = z.
Proof. intros H. unfold Go.wrap64. rewrite Z.mod_small; lia. Qed.

Lemma seconds_in_range (delay : Z) :
  0 <= delay <= 9223372036 ->
  Go.seconds delay = delay * Go.Second /\
  Go.blocked_ns (Go.seconds delay) = delay * Go.Second.
Proof.
  intros H. unfold Go.seconds, Go.mul64, Go.blocked_ns, Go.Second.
  rewrite wrap64_small by lia. split; lia.
Qed.

(** C7, the non-integer half as stated and the integer half within the
    range of [time.Duration]: a configured delay that [Atoi] rejects makes
    the read log a warning and go on with the rest of its body, without
    sleeping; a configured delay of [delay] seconds, for [delay] between 0
    and 9223372036, makes it log, sleep [delay] seconds, and only then
    issue its requests. *)
Theorem users_delay (h : Users.Helpers) (client : Users.Client)
    (d : schema.ResourceData) (n : string) :
  Users.GetOkString d "delay_read_seconds" = Some n ->
  (Go.Atoi n = None ->
   Users.dataSourceUsersRead h client d
     = Read.finish (Users.listAndFlatten h client
                      (Read.mkState d [Users.warnNotInteger n])) /\
   exists evs,
     Read.st_trace (snd (Users.dataSourceUsersRead h client d))
       = Users.warnNotInteger n :: evs /\
     Forall (fun e => isRequest e = true) evs) /\
  (forall delay,
      Go.Atoi n = Some delay -> 0 <= delay <= 9223372036 ->
      Users.dataSourceUsersRead h client d
        = Read.finish (Users.listAndFlatten h client
                         (Read.mkState d [Users.infoDelaying delay;
                                          Sleep (delay * Go.Second)])) /\
      Go.blocked_ns (delay * Go.Second) = delay * Go.Second /\
      exists evs,
        Read.st_trace (snd (Users.dataSourceUsersRead h client d))
          = Users.infoDelaying delay :: Sleep (delay * Go.Second) :: evs /\
        Forall (fun e => isRequest e = true) evs).
Proof.
  intros Hn. rewrite dataSourceUsersRead_unfold, finish_snd.
  unfold Users.delayEvents. rewrite Hn. split.
  - intros Ha. rewrite Ha. split; [reflexivity|].
    destruct (listAndFlatten_requests h client
                (Read.mkState d [Users.warnNotInteger n])) as (evs & E & F & _).
    exists evs. by rewrite E.
  - intros delay Ha Hrange. rewrite Ha.
    destruct (seconds_in_range delay Hrange) as [Hs Hb]. rewrite Hs in *.
    split; [reflexivity|]. split; [exact Hb|].
    destruct (listAndFlatten_requests h client
                (Read.mkState d [Users.infoDelaying delay;
                                 Sleep (delay * Go.Second)]))
      as (evs & E & F & _).
    exists evs. by rewrite E.
Qed.

Lemma users_delay_witness :
  (exists evs,
     Read.st_trace (snd (Users.dataSourceUsersRead
                           Users.sampleHelpers Users.threePages Users.bySearch))
       = Users.warnNotInteger "soon" :: evs /\
     Forall (fun e => isRequest e = true) evs) /\
  (exists evs,
     Read.st_trace (snd (Users.dataSourceUsersRead
                           Users.sampleHelpers Users.threePages Users.byGroup))
       = Users.infoDelaying 2 :: Sleep (2 * Go.Second) :: evs /\
     Forall (fun e => isRequest e = true) evs).
Proof.
  split.
  - apply (users_delay Users.sampleHelpers Users.threePages Users.bySearch "soon");
      vm_compute; reflexivity.
  - apply (proj2 (users_delay Users.sampleHelpers Users.threePages
                           Users.byGroup "2" ltac:(vm_compute; reflexivity)) 2);
      [vm_compute; reflexivity | lia].
Defined.

(** C7 as stated fails on a value [Atoi] accepts but whose nanoseconds do
    not fit an [int64]: 9223372037 seconds wrap to a negative duration and
    the read does not block. *)
Lemma users_delay_wraps : ~ Users.blocksForConfiguredSeconds.
Proof.
  intros H.
  destruct (H Users.sampleHelpers Users.threePages Users.hugeDelay
              "9223372037" 9223372037 eq_refl eq_refl)
    as (ns & evs & E & B).
  vm_compute in E. injection E as <- _.
  vm_compute in B. discriminate B.
Qed.

Lemma selectClientSecret_two_witness :
  (AppOauth.selectClientSecret [AppOauth.olderSecret; AppOauth.newerSecret]
     = Some "newer-secret" /\
   AppOauth.selectClientSecret [AppOauth.newerSecret; AppOauth.olderSecret]
     = Some "newer-secret") /\
  (AppOauth.selectClientSecret [AppOauth.newerSecret; AppOauth.retiredSecret]
     = Some "newer-secret" /\
   AppOauth.selectClientSecret [AppOauth.retiredSecret; AppOauth.newerSecret]
     = Some "newer-secret").
Proof.
  split.
  - apply (selectClientSecret_two AppOauth.olderSecret AppOauth.newerSecret);
      reflexivity.
  - apply (selectClientSecret_two AppOauth.newerSecret AppOauth.retiredSecret);
      [reflexivity | discriminate].
Defined.

Lemma selectClientSecret_tie_and_prefix_witness :
  AppOauth.selectClientSecret
    [AppOauth.olderSecret;
     AppOauth.mkClientSecretItem "ACTIVE" "ocs3" "twin-secret"
                                 "2023-12-31T23:59:59.000Z";
     AppOauth.newerSecret] = Some "older-secret" /\
  AppOauth.selectClientSecret
    [AppOauth.retiredSecret; AppOauth.retiredSecret; AppOauth.newerSecret]
    = Some "".
Proof.
  split.
  - apply (proj1 selectClientSecret_tie_and_prefix); reflexivity.
  - apply (proj2 (proj2 selectClientSecret_tie_and_prefix)); discriminate.
Defined.

(* ===================================================================== *)
(** ** The OAuth application read *)
(* ===================================================================== *)

Section AppOauthRead.

Import Read schema AppOauth.

Lemma pbind_assoc {A B C} (m : P A) (f : A -> P B) (g : B -> P C)
    (s : State) :
  pbind (pbind m f) g s = pbind m (fun a => pbind (f a) g) s.
Proof. unfold pbind. by destruct (m s) as [[[diags|a]|] s']. Qed.

Lemma pbind_orPanic_some {A B} (a : A) (f : A -> P B) (s : State) :
  pbind (orPanic (Some a)) f s = f a s.
Proof. reflexivity. Qed.

Lemma pbind_orPanic_none {A B} (f : A -> P B) (s : State) :
  pbind (orPanic None) f s = (None, s).
Proof. reflexivity. Qed.

Lemma pbind_lift_ret {A B} (a : A) (f : A -> P B) (s : State) :
  pbind (lift (ret a)) f s = f a s.
Proof. reflexivity. Qed.

Lemma pbind_lift_modify {A} (g : ResourceData -> ResourceData)
    (f : unit -> P A) (s : State) :
  pbind (lift (modify g)) f s = f tt (mkState (g (st_d s)) (st_trace s)).
Proof. reflexivity. Qed.

Lemma pbind_lift_bind {A B C} (m : M A) (f : A -> M B) (g : B -> P C)
    (s : State) :
  pbind (lift (bind m f)) g s
    = pbind (lift m) (fun a => pbind (lift (f a)) g) s.
Proof.
  unfold pbind, lift, bind. by destruct (m s) as [[diags|a] s'].
Qed.

(** A declared attribute given a value of its type is set. *)
Lemma pbind_pSet {A} (key : string) (v : Value) (k : Kind)
    (f : unit -> P A) (s : State) :
  dataSourceAppOauth !! key = Some k ->
  compatible k v = true ->
  pbind (pSet key v) f s
    = f tt (mkState (mkResourceData (rd_id (st_d s))
                                    (<[key := v]> (rd_attrs (st_d s))))
                    (st_trace s)).
Proof.
  intros Hk Hc. unfold pSet, dSet, set_, set, Set_, pbind, lift, bind, ret.
  by rewrite Hk, Hc.
Qed.

Lemma pbind_lift_set {A} (key : string) (v : Value) (k : Kind)
    (f : option Go.error -> P A) (s : State) :
  dataSourceAppOauth !! key = Some k ->
  compatible k v = true ->
  pbind (lift (set dataSourceAppOauth key v)) f s
    = f None (mkState (mkResourceData (rd_id (st_d s))
                                      (<[key := v]> (rd_attrs (st_d s))))
                      (st_trace s)).
Proof.
  intros Hk Hc. unfold set, Set_, pbind, lift. by rewrite Hk, Hc.
Qed.

End AppOauthRead.

Ltac declared :=
  lazymatch goal with
  | |- schema.compatible _ _ = true => reflexivity
  | |- _ !! _ = Some _ => vm_compute; reflexivity
  end.

(** One statement of [flatten] after the other, on an explicit state;
    what is known of the application is used where it is read. *)
Ltac run_flatten :=
  repeat first
    [ rewrite pbind_orPanic_some
    | rewrite pbind_orPanic_none
    | erewrite pbind_pSet by declared;
      cbn [Read.st_d Read.st_trace schema.rd_id schema.rd_attrs schema.SetId]
    | erewrite pbind_lift_set by declared;
      cbn [Read.st_d Read.st_trace schema.rd_id schema.rd_attrs schema.SetId]
    | rewrite pbind_lift_ret
    | rewrite pbind_lift_modify;
      cbn [Read.st_d Read.st_trace schema.rd_id schema.rd_attrs schema.SetId]
    | rewrite pbind_lift_bind
    | rewrite pbind_assoc
    | match goal with H : _ = Some _ |- _ => rewrite H end
    | match goal with H : _ = None |- _ => rewrite H end
    | progress cbn beta iota
    | progress cbn [Read.st_d Read.st_trace schema.rd_id schema.rd_attrs
                    schema.SetId List.app AppOauth.setNonPrimitives
                    AppOauth.Cred_OauthClient] ].

Section Flatten.

Import Read schema AppOauth.

Variable h : Helpers.


(** [flatten] on any other application panics. *)
Lemma flatten_panics (app : OpenIdConnectApplication) (s : State) :
  parts app = None -> fst (flatten h app s) = None.
Proof.
  unfold parts.
  destruct (Visibility app) as [vis|] eqn:Hv;
    [|intros _; unfold flatten; by run_flatten].
  destruct (Hide vis) as [hide|] eqn:Hh;
    [|intros _; unfold flatten; by run_flatten].
  destruct (Settings app) as [settings|] eqn:Hs;
    [|intros _; unfold flatten; by run_flatten].
  destruct (OauthClient settings) as [oc|] eqn:Hoc; [|done].
  destruct (Credentials app) as [[[cc|]]|] eqn:Hc; try done;
    intros _; unfold flatten; by run_flatten.
Qed.


End Flatten.



(** C9 as stated fails on an application decoded without its settings:
    it has no OAuth-client settings, and [flatten] panics on it at
    [app.Settings.OauthClient], before [links] is set. *)
Lemma flatten_panics_without_settings : ~ AppOauth.flattensEveryApplication.
Proof.
  intros H.
  destruct (H AppOauth.sampleHelpers AppOauth.withoutSettings
              (Read.mkState (AppOauth.byLabel "legacy") [])) as [Hdone _].
  specialize (Hdone eq_refl).
  rewrite (flatten_panics AppOauth.sampleHelpers AppOauth.withoutSettings _
             eq_refl) in Hdone.
  discriminate Hdone.
Qed.

(* ===================================================================== *)
(** ** The OAuth application read, step by step *)
(* ===================================================================== *)

Section AppOauthRun.

Import Read schema AppOauth.

Variable h : Helpers.
Variable client : Client.

(** The read when the lookup returns diagnostics. *)
Lemma appRead_lookup_fails (d : ResourceData) (filters : appFilters)
    (diags : Diagnostics) (s1 : State) :
  getAppFilters h d = (filters, None) ->
  findApp h client filters (mkState d []) = (Done diags, s1) ->
  dataSourceAppOauthRead h client d = (Some diags, s1).
Proof.
  intros Hf Hfind.
  unfold dataSourceAppOauthRead, prun, dataSourceAppOauthRead_body.
  unfold pbind at 1. unfold lift at 1. unfold get at 1. cbn [st_d].
  rewrite Hf. unfold pbind at 1. unfold lift at 1. by rewrite Hfind.
Qed.

(** The read when the lookup selects [app]. *)
Lemma appRead_lookup_selects (d : ResourceData) (filters : appFilters)
    (app : OpenIdConnectApplication) (s1 : State) :
  getAppFilters h d = (filters, None) ->
  findApp h client filters (mkState d []) = (Next app, s1) ->
  dataSourceAppOauthRead h client d =
    match setAppUsersIDsAndGroupsIDs client (st_d s1) (App_Id app) with
    | (d', Some err) =>
        (Some (Errorf ("failed to list OAuth's app groups and users: "
                       +:+ err)),
         mkState d' (st_trace s1 ++ [Request (ReqUsersAndGroups (App_Id app))]))
    | (d', None) =>
        pfinish (pbind (fetchClientSecret client app) (fun _ => flatten h app)
                       (mkState d' (st_trace s1
                                    ++ [Request (ReqUsersAndGroups (App_Id app))])))
    end.
Proof.
  intros Hf Hfind.
  unfold dataSourceAppOauthRead, prun, dataSourceAppOauthRead_body.
  unfold pbind at 1. unfold lift at 1. unfold get at 1. cbn [st_d].
  rewrite Hf. unfold pbind at 1. unfold lift at 1. rewrite Hfind.
  unfold pbind at 1. unfold lift at 1. unfold get at 1.
  destruct (setAppUsersIDsAndGroupsIDs client (st_d s1) (App_Id app))
    as [d' [err|]]; reflexivity.
Qed.

Lemma findApp_keeps_d (filters : appFilters) (s : State) :
  st_d (snd (findApp h client filters s)) = st_d s.
Proof.
  unfold findApp.
  destruct (negb (String.eqb (ID filters) "")).
  - unfold bind, io. cbn [fst snd].
    by destruct (GetApplication client (ID filters)) as [app [err|]].
  - destruct (NewRequest client "GET" (listAppsURL h filters)); [done|].
    unfold bind, io. cbn [fst snd].
    destruct (Do_appList client (listAppsURL h filters))
      as [[|app0 rest] [err|]]; try done.
    by destruct (_ && _).
Qed.

End AppOauthRun.

(** C3: a lookup by label (no identifier in the filters) whose listing
    succeeds with a first application of another label returns the
    not-found diagnostic and leaves [d] as it was, whatever the server
    matched; when the first application carries exactly the requested
    label, it is the application the read goes on with. *)
Theorem label_reverified (h : AppOauth.Helpers) (client : AppOauth.Client)
    (d : schema.ResourceData) (filters : AppOauth.appFilters)
    (app0 : AppOauth.OpenIdConnectApplication)
    (rest : list AppOauth.OpenIdConnectApplication) :
  AppOauth.getAppFilters h d = (filters, None) ->
  AppOauth.ID filters = "" ->
  AppOauth.Filter_Label filters <> "" ->
  AppOauth.NewRequest client "GET" (AppOauth.listAppsURL h filters) = None ->
  AppOauth.Do_appList client (AppOauth.listAppsURL h filters)
    = (app0 :: rest, None) ->
  (AppOauth.Label app0 <> AppOauth.Filter_Label filters ->
   fst (AppOauth.dataSourceAppOauthRead h client d)
     = Some (Errorf ("no OAuth application found with the provided label: "
                     +:+ AppOauth.Filter_Label filters)) /\
   Read.st_d (snd (AppOauth.dataSourceAppOauthRead h client d)) = d) /\
  (AppOauth.Label app0 = AppOauth.Filter_Label filters ->
   fst (AppOauth.findApp h client filters (Read.mkState d []))
     = Read.Next app0).
Proof.
  intros Hf Hid Hlabel Hreq Hdo.
  assert (Hnonempty :
            negb (String.eqb (AppOauth.Filter_Label filters) "") = true).
  { destruct (String.eqb (AppOauth.Filter_Label filters) "") eqn:E;
      [|reflexivity].
    apply String.eqb_eq in E. contradiction. }
  split.
  - intros Hne.
    assert (Hrun :
              AppOauth.dataSourceAppOauthRead h client d
              = (Some (Errorf ("no OAuth application found with the provided label: "
                               +:+ AppOauth.Filter_Label filters)),
                 Read.mkState d
                   [Request (ReqHTTP "GET" (AppOauth.listAppsURL h filters))])).
    { apply (appRead_lookup_fails h client d filters); [done|].
      unfold AppOauth.findApp.
      rewrite Hid. cbn [String.eqb negb]. rewrite Hreq.
      unfold Read.bind at 1. unfold Read.io at 1. cbn [fst snd].
      rewrite Hdo, Hnonempty.
      destruct (String.eqb (AppOauth.Label app0)
                           (AppOauth.Filter_Label filters)) eqn:E.
      + apply String.eqb_eq in E. contradiction.
      + reflexivity. }
    rewrite Hrun. by split.
  - intros Heq. unfold AppOauth.findApp.
    rewrite Hid. cbn [String.eqb negb]. rewrite Hreq.
    unfold Read.bind at 1. unfold Read.io at 1. cbn [fst snd].
    rewrite Hdo, Hnonempty, Heq, String.eqb_refl. reflexivity.
Qed.

Lemma label_reverified_witness :
  (fst (AppOauth.dataSourceAppOauthRead AppOauth.sampleHelpers
          (AppOauth.server [AppOauth.billingStaging; AppOauth.billing]
                           [AppOauth.newerSecret])
          (AppOauth.byLabel "billing-portal"))
     = Some (Errorf "no OAuth application found with the provided label: billing-portal") /\
   Read.st_d (snd (AppOauth.dataSourceAppOauthRead AppOauth.sampleHelpers
                     (AppOauth.server [AppOauth.billingStaging; AppOauth.billing]
                                      [AppOauth.newerSecret])
                     (AppOauth.byLabel "billing-portal")))
     = AppOauth.byLabel "billing-portal") /\
  fst (AppOauth.findApp AppOauth.sampleHelpers
         (AppOauth.server [AppOauth.billing; AppOauth.billingStaging]
                          [AppOauth.newerSecret])
         (AppOauth.mkAppFilters "" "billing-portal" "" "status eq ACTIVE")
         (Read.mkState (AppOauth.byLabel "billing-portal") []))
    = Read.Next AppOauth.billing.
Proof.
  split.
  - apply (label_reverified AppOauth.sampleHelpers
             (AppOauth.server [AppOauth.billingStaging; AppOauth.billing]
                              [AppOauth.newerSecret])
             (AppOauth.byLabel "billing-portal")
             (AppOauth.mkAppFilters "" "billing-portal" "" "status eq ACTIVE")
             AppOauth.billingStaging [AppOauth.billing]);
      try (vm_compute; reflexivity); discriminate.
  - apply (label_reverified AppOauth.sampleHelpers
             (AppOauth.server [AppOauth.billing; AppOauth.billingStaging]
                              [AppOauth.newerSecret])
             (AppOauth.byLabel "billing-portal")
             (AppOauth.mkAppFilters "" "billing-portal" "" "status eq ACTIVE")
             AppOauth.billing [AppOauth.billingStaging]);
      try (vm_compute; reflexivity); discriminate.
Defined.

(** C1, evaluated: with two ACTIVE secrets, of which the selection takes
    the newer one, and with no ACTIVE secret, where the selection is
    empty, the read succeeds and in both cases sets [client_secret] to the
    secret embedded in the application's credentials; the selected value
    reaches no attribute. *)
Theorem client_secret_not_the_selected_one :
  let latest := [AppOauth.olderSecret; AppOauth.newerSecret] in
  let retired := [AppOauth.retiredSecret] in
  let read secrets :=
    AppOauth.dataSourceAppOauthRead AppOauth.sampleHelpers
      (AppOauth.server [AppOauth.billing] secrets)
      (AppOauth.byLabel "billing-portal") in
  AppOauth.selectClientSecret latest = Some "newer-secret" /\
  fst (read latest) = Some [] /\
  schema.rd_attrs (Read.st_d (snd (read latest))) !! "client_secret"
    = Some (schema.VString "embedded-secret") /\
  AppOauth.selectClientSecret retired = Some "" /\
  fst (read retired) = Some [] /\
  schema.rd_attrs (Read.st_d (snd (read retired))) !! "client_secret"
    = Some (schema.VString "embedded-secret").
Proof. vm_compute. repeat split; reflexivity. Qed.

(* ===================================================================== *)
(** ** The Go primitives on known values *)
(* ===================================================================== *)

Example Atoi_plain : Go.Atoi "30" = Some 30.
Proof. reflexivity. Qed.

Example Atoi_signed : Go.Atoi "-7" = Some (-7) /\ Go.Atoi "+7" = Some 7.
Proof. split; reflexivity. Qed.

Example Atoi_rejects :
  Go.Atoi "" = None /\ Go.Atoi "-" = None /\ Go.Atoi "3s" = None /\
  Go.Atoi "1.5" = None /\ Go.Atoi "9223372036854775808" = None.
Proof. repeat split; reflexivity. Qed.

Example Sprintf_d_examples :
  Go.Sprintf_d 0 = "0" /\ Go.Sprintf_d 3421780262 = "3421780262".
Proof. split; reflexivity. Qed.

(** The standard check value of CRC-32/IEEE. *)
Example ChecksumIEEE_check :
  crc32.ChecksumIEEE (Go.bytes "123456789") = 0xcbf43926.
Proof. vm_compute. reflexivity. Qed.

Example string_gt_timestamps :
  Go.string_gt "2024-03-01T10:00:00.000Z" "2023-12-31T23:59:59.000Z" = true.
Proof. reflexivity. Qed.

Example seconds_wraps :
  Go.Atoi "9223372037" = Some 9223372037 /\
  Go.seconds 9223372037 = -9223372036709551616 /\
  Go.blocked_ns (Go.seconds 9223372037) = 0.
Proof. repeat split; reflexivity. Qed.

Example searchId_sample :
  Users.searchId Users.sampleHelpers
    (Users.searchParams Users.sampleHelpers Users.bySearch) = "3780004088".
Proof. vm_compute. reflexivity. Qed.

(* ===================================================================== *)
(** ** The email-template calls *)
(* ===================================================================== *)

Section EmailTemplates.

Import sdk.


End EmailTemplates.

(** X1: whatever the request executor answers, [CreateEmailTemplate],
    [UpdateEmailTemplate] and [GetEmailTemplate] hand at most one request
    to [Do], never return a template together with an error (even when
    [Do] decoded one), and when they sent nothing they return no response
    and an error. *)
Theorem email_template_results (m : sdk.APISupplement) (id : string)
    (body : sdk.SdkEmailTemplate) (qp : option query.Params) :
  sdk.wellFormed (sdk.CreateEmailTemplate m body qp) /\
  sdk.wellFormed (sdk.UpdateEmailTemplate m id body qp) /\
  sdk.wellFormed (sdk.GetEmailTemplate m id).
Proof.
  unfold sdk.wellFormed, sdk.CreateEmailTemplate, sdk.UpdateEmailTemplate,
    sdk.GetEmailTemplate.
  split; [|split];
    match goal with
    | |- context [sdk.NewRequest ?re ?a ?b ?c] =>
        destruct (sdk.NewRequest re a b c) as [req [e|]];
        [|destruct (sdk.Do re req) as [[temp resp] [e|]]]
    end; simpl; repeat split; try done; try lia.
Qed.

(** X2: [DeleteEmailTemplate] hands at most one request to [Do]; when it
    sent nothing it returns no response and an error; when it sent a
    request it returns the response and the error of [Do] as they are. *)
Theorem email_template_delete (m : sdk.APISupplement) (id : string) :
  (length (snd (sdk.DeleteEmailTemplate m id)) <= 1)%nat /\
  (snd (sdk.DeleteEmailTemplate m id) = [] ->
   fst (fst (sdk.DeleteEmailTemplate m id)) = None /\
   snd (fst (sdk.DeleteEmailTemplate m id)) <> None) /\
  (forall req,
      snd (sdk.DeleteEmailTemplate m id) = [req] ->
      fst (sdk.DeleteEmailTemplate m id)
      = (snd (fst (sdk.Do (sdk.Executor m) req)),
         snd (sdk.Do (sdk.Executor m) req))).
Proof.
  unfold sdk.DeleteEmailTemplate.
  destruct (sdk.NewRequest (sdk.Executor m) sdk.MethodDelete
              ("/api/v1/templates/emails/" +:+ id) None) as [req [e|]].
  - simpl. repeat split; try done; lia.
  - destruct (sdk.Do (sdk.Executor m) req) as [[temp resp] err] eqn:E.
    simpl. repeat split; try done; try lia.
    intros req' [= <-]. by rewrite E.
Qed.



(* ===================================================================== *)
(** ** The users read, from listing to flattening *)
(* ===================================================================== *)

Section UsersFlatten.

Import Read Users.

Variable h : Helpers.
Variable client : Client.

Lemma users_declared :
  dataSourceUsers !! "users" = Some schema.TypeList.
Proof. vm_compute. reflexivity. Qed.

Lemma yields_ret {A} (Q : A -> Prop) F (a : A) : Q a -> yields Q F (ret a).
Proof. by intros H s. Qed.

Lemma yields_done {A} (Q : A -> Prop) (F : Diagnostics -> Prop) diags :
  F diags -> yields Q F (@done A diags).
Proof. by intros H s. Qed.

Lemma yields_io {A} (Q : A -> Prop) F (m : IO A) :
  Q (fst m) -> yields Q F (io m).
Proof. by intros H s. Qed.

Lemma yields_bind {A B} (Q1 : A -> Prop) (Q : B -> Prop) F
    (m : M A) (f : A -> M B) :
  yields Q1 F m -> (forall a, Q1 a -> yields Q F (f a)) ->
  yields Q F (bind m f).
Proof.
  intros Hm Hf s. unfold bind. destruct (Hm s) as [Hd Hr].
  destruct (m s) as [[diags|a] s1]; cbn in *; [done|].
  destruct (Hf a Hr s1) as [Hd' Hr']. split; [congruence|done].
Qed.

(** The per-user loop never touches [d]; it ends either with one object
    per user, each carrying its user's identifier, or with one of its two
    diagnostics. *)
Lemma flattenEach_outcome (g r : bool) (users : list User) :
  yields (Forall2 carriesId users) perUserFailure
         (flattenEach h client g r users).
Proof.
  induction users as [|user rest IH]; cbn [flattenEach].
  - apply yields_ret. constructor.
  - apply (yields_bind (carriesId user)).
    { destruct g.
      - apply (yields_bind (fun _ => True)); [by apply yields_io|].
        intros [groups [e|]] _.
        + apply yields_done. exists e. by left.
        + apply yields_ret. unfold carriesId.
          by rewrite lookup_insert_ne, lookup_insert_eq.
      - apply yields_ret. apply lookup_insert_eq. }
    intros rawMap Hid. apply (yields_bind (carriesId user)).
    { destruct r.
      - apply (yields_bind (fun _ => True)); [by apply yields_io|].
        intros [roles [e|]] _.
        + apply yields_done. exists e. by right.
        + apply yields_ret. unfold carriesId. by rewrite lookup_insert_ne.
      - by apply yields_ret. }
    intros rawMap' Hid'. apply (yields_bind (Forall2 carriesId rest)); [exact IH|].
    intros arr Harr. apply yields_ret. by constructor.
Qed.

Lemma setUsers_run (users : list User) (s : State) :
  setUsers h client users s =
    match flattenEach h client
            (schema.GetBool (st_d s) "include_groups")
            (schema.GetBool (st_d s) "include_roles") users s with
    | (Done diags, s') => (Done diags, s')
    | (Next arr, s') =>
        (Done [],
         mkState (schema.mkResourceData
                    (schema.rd_id (st_d s'))
                    (<["users" := schema.VObjects arr]>
                       (schema.rd_attrs (st_d s'))))
                 (st_trace s'))
    end.
Proof.
  unfold setUsers. unfold bind at 1. unfold get at 1. cbn [st_d].
  unfold bind at 1.
  destruct (flattenEach h client _ _ users s) as [[diags|arr] s']; [done|].
  unfold set_, set, schema.Set_, bind. by rewrite users_declared.
Qed.

Lemma flattenEach_plain (users : list User) (s : State) :
  flattenEach h client false false users s
    = (Next (List.map (flatObject h) users), s).
Proof.
  induction users as [|user rest IH]; [done|].
  cbn [flattenEach List.map]. unfold bind at 1. cbn [ret].
  unfold bind at 1. cbn [ret]. unfold bind. by rewrite IH.
Qed.

Lemma flattenEach_full (users : list User) :
  Forall (fun u => snd (getGroupsForUser client (Id u)) = None /\
                   snd (getAdminRoles client (Id u)) = None) users ->
  forall s,
    flattenEach h client true true users s
      = (Next (List.map (fullObject h client) users),
         mkState (st_d s)
                 (st_trace s ++ List.flat_map perUserRequests users)).
Proof.
  induction 1 as [|user rest [Hg Hr] _ IH]; intros s.
  - destruct s. cbn. by rewrite app_nil_r.
  - cbn [flattenEach List.map List.flat_map]. unfold fullObject, flatObject.
    destruct (getGroupsForUser client (Id user)) as [groups eg].
    destruct (getAdminRoles client (Id user)) as [roles er].
    cbn in Hg, Hr. subst eg er.
    unfold bind, io, ret. cbn [fst snd st_d st_trace].
    rewrite IH. cbn [st_d st_trace perUserRequests List.app].
    by rewrite <- !app_assoc.
Qed.

Lemma collectUsers_not_per_user (qp : query.Params) :
  Forall (fun e => isRequest e = true /\ isPerUser e = false)
         (snd (collectUsers client qp)).
Proof.
  unfold collectUsers, io_bind, io_emit.
  destruct (ListUsers client qp) as [[users resp] [err|]].
  - by repeat constructor.
  - pose proof (followPages_trace resp users) as Ht.
    destruct (followPages users resp) as [res t]. cbn in *.
    constructor; [done|].
    eapply Forall_impl; [exact Ht|]. by intros e ->.
Qed.

(** A successful listing hands its records to the flattening, with the
    identifier set. *)
Lemma listAndFlatten_lists (d : schema.ResourceData) (id : string)
    (users : list User) (t : list Event) :
  lists h client d id users ->
  exists evs,
    listAndFlatten h client (mkState d t)
      = setUsers h client users (mkState (schema.SetId id d) (t ++ evs)) /\
    Forall (fun e => isRequest e = true /\ isPerUser e = false) evs.
Proof.
  intros [[Hg Hl]|(Hg & [v Hs] & -> & Hc)];
    unfold listAndFlatten, listUsers, bind, get; cbn [st_d st_trace];
    rewrite Hg.
  - unfold io, ret. cbn [fst snd st_d st_trace]. rewrite Hl.
    eexists. split; [reflexivity|]. by repeat constructor.
  - rewrite Hs. unfold io, ret. cbn [fst snd st_d st_trace].
    rewrite Hc. eexists. split; [reflexivity|].
    apply collectUsers_not_per_user.
Qed.

Lemma listAndFlatten_fails (d : schema.ResourceData) (err : Go.error)
    (t : list Event) :
  listingFails h client d err ->
  fst (listAndFlatten h client (mkState d t))
    = Done (Errorf ("failed to list users: " +:+ err)) /\
  st_d (snd (listAndFlatten h client (mkState d t))) = d.
Proof.
  intros [(g & users & Hg & Hl)|(Hg & [v Hs] & Hc)];
    unfold listAndFlatten, listUsers, bind, get; cbn [st_d st_trace];
    rewrite Hg.
  - unfold io, ret. cbn [fst snd st_d st_trace]. by rewrite Hl.
  - rewrite Hs. unfold io, ret. cbn [fst snd st_d st_trace].
    destruct (collectUsers client (searchParams h d)) as [[users e] evs].
    cbn in Hc. by subst e.
Qed.

Lemma delayEvents_not_per_user (d : schema.ResourceData) :
  List.filter isPerUser (delayEvents d) = [].
Proof.
  unfold delayEvents.
  destruct (GetOkString d "delay_read_seconds") as [n|]; [|done].
  by destruct (Go.Atoi n).
Qed.

Lemma filter_none (f : Event -> bool) (evs : list Event) :
  Forall (fun e => isRequest e = true /\ f e = false) evs ->
  List.filter f evs = [].
Proof.
  induction 1 as [|e evs [_ Hf] _ IH]; [done|]. cbn. by rewrite Hf.
Qed.

Lemma filter_per_user_requests (users : list User) :
  List.filter isPerUser (List.flat_map perUserRequests users)
    = List.flat_map perUserRequests users.
Proof. induction users as [|u rest IH]; [done|]. cbn. by rewrite IH. Qed.

End UsersFlatten.

(** X4: once the listing has succeeded, the identifier is set whatever
    happens next; the read then either succeeds and sets [users] to one
    object per listed user, in order, each carrying its user's [id] (also
    over an [id] key of the flattened profile), or returns one of the two
    per-user diagnostics and leaves every attribute, [users] included, as
    it was. *)
Theorem users_read_outcome (h : Users.Helpers) (client : Users.Client)
    (d : schema.ResourceData) (id : string) (users : list Users.User) :
  Users.lists h client d id users ->
  schema.rd_id (Read.st_d (snd (Users.dataSourceUsersRead h client d))) = id /\
  ((fst (Users.dataSourceUsersRead h client d) = [] /\
    exists arr,
      Forall2 Users.carriesId users arr /\
      schema.rd_attrs (Read.st_d (snd (Users.dataSourceUsersRead h client d)))
        = <["users" := schema.VObjects arr]> (schema.rd_attrs d)) \/
   (Users.perUserFailure (fst (Users.dataSourceUsersRead h client d)) /\
    schema.rd_attrs (Read.st_d (snd (Users.dataSourceUsersRead h client d)))
      = schema.rd_attrs d)).
Proof.
  intros Hl. rewrite dataSourceUsersRead_unfold.
  destruct (listAndFlatten_lists h client d id users (Users.delayEvents d) Hl)
    as (evs & -> & _).
  rewrite setUsers_run. cbn [Read.st_d].
  match goal with |- context [Users.flattenEach h client ?g ?r users ?s1] =>
    destruct (flattenEach_outcome h client g r users s1) as [Hd Hr];
    destruct (Users.flattenEach h client g r users s1) as [[diags|arr] s2]
  end; cbn in Hd, Hr; cbn [Read.finish fst snd Read.st_d schema.rd_id schema.rd_attrs];
    rewrite Hd; cbn [schema.SetId schema.rd_id schema.rd_attrs].
  - split; [done|]. right. by split.
  - split; [done|]. left. split; [done|]. by exists arr.
Qed.

Lemma users_read_outcome_witness :
  schema.rd_id (Read.st_d (snd (Users.dataSourceUsersRead
                                  Users.sampleHelpers Users.onePage
                                  Users.withGroupsAndRoles))) = "00g1" /\
  ((fst (Users.dataSourceUsersRead Users.sampleHelpers Users.onePage
           Users.withGroupsAndRoles) = [] /\
    exists arr,
      Forall2 Users.carriesId [Users.carol] arr /\
      schema.rd_attrs (Read.st_d (snd (Users.dataSourceUsersRead
                                         Users.sampleHelpers Users.onePage
                                         Users.withGroupsAndRoles)))
        = <["users" := schema.VObjects arr]>
            (schema.rd_attrs Users.withGroupsAndRoles)) \/
   (Users.perUserFailure
      (fst (Users.dataSourceUsersRead Users.sampleHelpers Users.onePage
              Users.withGroupsAndRoles)) /\
    schema.rd_attrs (Read.st_d (snd (Users.dataSourceUsersRead
                                       Users.sampleHelpers Users.onePage
                                       Users.withGroupsAndRoles)))
      = schema.rd_attrs Users.withGroupsAndRoles)).
Proof.
  apply (users_read_outcome Users.sampleHelpers Users.onePage
           Users.withGroupsAndRoles "00g1" [Users.carol]).
  left. split; vm_compute; reflexivity.
Defined.

(** X5: when the listing fails, by group or by search, the read returns
    the diagnostic "failed to list users" with the error and leaves [d] as
    it was: no identifier, no [users]. *)
Theorem users_listing_failure (h : Users.Helpers) (client : Users.Client)
    (d : schema.ResourceData) (err : Go.error) :
  Users.listingFails h client d err ->
  fst (Users.dataSourceUsersRead h client d)
    = Errorf ("failed to list users: " +:+ err) /\
  Read.st_d (snd (Users.dataSourceUsersRead h client d)) = d.
Proof.
  intros Hf. rewrite dataSourceUsersRead_unfold.
  destruct (listAndFlatten_fails h client d err (Users.delayEvents d) Hf)
    as [Hr Hd].
  destruct (Users.listAndFlatten h client _) as [[diags|diags] s'];
    cbn in *; [|done]. split; congruence.
Qed.

Lemma users_listing_failure_witness :
  fst (Users.dataSourceUsersRead Users.sampleHelpers Users.thirdPageFails
         Users.bySearch)
    = Errorf "failed to list users: 502 Bad Gateway" /\
  Read.st_d (snd (Users.dataSourceUsersRead Users.sampleHelpers
                    Users.thirdPageFails Users.bySearch)) = Users.bySearch.
Proof.
  apply (users_listing_failure Users.sampleHelpers Users.thirdPageFails
           Users.bySearch "502 Bad Gateway").
  right. split; [vm_compute; reflexivity|].
  split; [vm_compute; eexists; reflexivity|reflexivity].
Defined.

(** X6: with [include_groups] and [include_roles] both off, a read whose
    listing succeeded issues no per-user request, succeeds, and sets
    [users] to the flattened profile of each listed user with its [id],
    in the order of the listing. *)
Theorem users_read_plain (h : Users.Helpers) (client : Users.Client)
    (d : schema.ResourceData) (id : string) (users : list Users.User) :
  Users.lists h client d id users ->
  schema.GetBool d "include_groups" = false ->
  schema.GetBool d "include_roles" = false ->
  fst (Users.dataSourceUsersRead h client d) = [] /\
  schema.rd_attrs (Read.st_d (snd (Users.dataSourceUsersRead h client d)))
    = <["users" := schema.VObjects (List.map (Users.flatObject h) users)]>
        (schema.rd_attrs d) /\
  List.filter Users.isPerUser
    (Read.st_trace (snd (Users.dataSourceUsersRead h client d))) = [].
Proof.
  intros Hl Hg Hr. rewrite dataSourceUsersRead_unfold.
  destruct (listAndFlatten_lists h client d id users (Users.delayEvents d) Hl)
    as (evs & -> & Hevs).
  rewrite setUsers_run. cbn [Read.st_d].
  change (schema.GetBool (schema.SetId id d)) with (schema.GetBool d).
  rewrite Hg, Hr, flattenEach_plain.
  cbn [Read.finish fst snd Read.st_d Read.st_trace schema.rd_attrs schema.SetId].
  repeat split.
  rewrite List.filter_app, delayEvents_not_per_user.
  by rewrite (filter_none _ _ Hevs).
Qed.

Lemma users_read_plain_witness :
  fst (Users.dataSourceUsersRead Users.sampleHelpers Users.threePages
         Users.bySearch) = [] /\
  schema.rd_attrs (Read.st_d (snd (Users.dataSourceUsersRead
                                     Users.sampleHelpers Users.threePages
                                     Users.bySearch)))
    = <["users" := schema.VObjects
                     (List.map (Users.flatObject Users.sampleHelpers)
                               [Users.alice; Users.bob; Users.carol])]>
        (schema.rd_attrs Users.bySearch) /\
  List.filter Users.isPerUser
    (Read.st_trace (snd (Users.dataSourceUsersRead Users.sampleHelpers
                           Users.threePages Users.bySearch))) = [].
Proof.
  apply (users_read_plain Users.sampleHelpers Users.threePages Users.bySearch
           (Users.searchId Users.sampleHelpers
              (Users.searchParams Users.sampleHelpers Users.bySearch))
           [Users.alice; Users.bob; Users.carol]).
  - right. split; [vm_compute; reflexivity|].
    split; [vm_compute; eexists; reflexivity|]. split; reflexivity.
  - vm_compute. reflexivity.
  - vm_compute. reflexivity.
Defined.

(** X7: with [include_groups] and [include_roles] both on and every
    per-user call succeeding, the read asks for the groups and then the
    roles of each listed user, user after user in the order of the
    listing, and sets [users] to the objects carrying both. *)
Theorem users_read_full (h : Users.Helpers) (client : Users.Client)
    (d : schema.ResourceData) (id : string) (users : list Users.User) :
  Users.lists h client d id users ->
  schema.GetBool d "include_groups" = true ->
  schema.GetBool d "include_roles" = true ->
  Forall (fun u => snd (Users.getGroupsForUser client (Users.Id u)) = None /\
                   snd (Users.getAdminRoles client (Users.Id u)) = None)
         users ->
  fst (Users.dataSourceUsersRead h client d) = [] /\
  schema.rd_attrs (Read.st_d (snd (Users.dataSourceUsersRead h client d)))
    = <["users" := schema.VObjects
                     (List.map (Users.fullObject h client) users)]>
        (schema.rd_attrs d) /\
  List.filter Users.isPerUser
    (Read.st_trace (snd (Users.dataSourceUsersRead h client d)))
    = List.flat_map Users.perUserRequests users.
Proof.
  intros Hl Hg Hr Hok. rewrite dataSourceUsersRead_unfold.
  destruct (listAndFlatten_lists h client d id users (Users.delayEvents d) Hl)
    as (evs & -> & Hevs).
  rewrite setUsers_run. cbn [Read.st_d].
  change (schema.GetBool (schema.SetId id d)) with (schema.GetBool d).
  rewrite Hg, Hr, (flattenEach_full h client users Hok).
  cbn [Read.finish fst snd Read.st_d Read.st_trace schema.rd_attrs schema.SetId].
  repeat split.
  rewrite !List.filter_app, delayEvents_not_per_user.
  by rewrite (filter_none _ _ Hevs), filter_per_user_requests.
Qed.

Lemma users_read_full_witness :
  fst (Users.dataSourceUsersRead Users.sampleHelpers Users.threePages
         Users.withGroupsAndRoles) = [] /\
  schema.rd_attrs (Read.st_d (snd (Users.dataSourceUsersRead
                                     Users.sampleHelpers Users.threePages
                                     Users.withGroupsAndRoles)))
    = <["users" := schema.VObjects
                     (List.map (Users.fullObject Users.sampleHelpers
                                                 Users.threePages)
                               [Users.alice; Users.bob])]>
        (schema.rd_attrs Users.withGroupsAndRoles) /\
  List.filter Users.isPerUser
    (Read.st_trace (snd (Users.dataSourceUsersRead Users.sampleHelpers
                           Users.threePages Users.withGroupsAndRoles)))
    = List.flat_map Users.perUserRequests [Users.alice; Users.bob].
Proof.
  apply (users_read_full Users.sampleHelpers Users.threePages
           Users.withGroupsAndRoles "00g1" [Users.alice; Users.bob]).
  - left. split; vm_compute; reflexivity.
  - vm_compute. reflexivity.
  - vm_compute. reflexivity.
  - repeat constructor.
Defined.

(** X8: when [group_id] is set the read lists by group whether or not
    [search] is set as well: its one listing request is the one by group,
    and no search request is issued. *)
Theorem users_group_precedence (h : Users.Helpers) (client : Users.Client)
    (d : schema.ResourceData) (groupId : string) :
  Users.GetOkString d "group_id" = Some groupId ->
  List.filter Users.isQuery
    (Read.st_trace (snd (Users.dataSourceUsersRead h client d)))
    = [Request (ReqListGroupUsers groupId)].
Proof.
  intros Hg. rewrite dataSourceUsersRead_unfold, finish_snd.
  destruct (delayEvents_quiet d) as [_ Qq].
  destruct (listAndFlatten_requests h client
              (Read.mkState d (Users.delayEvents d))) as (evs & E & _ & Q).
  rewrite E. cbn [Read.st_trace Read.st_d] in *.
  rewrite List.filter_app, Qq, Q.
  unfold Users.selectorQueries. by rewrite Hg.
Qed.

Lemma users_group_precedence_witness :
  List.filter Users.isQuery
    (Read.st_trace (snd (Users.dataSourceUsersRead Users.sampleHelpers
                           Users.threePages Users.bothSelectors)))
    = [Request (ReqListGroupUsers "00g1")].
Proof.
  apply (users_group_precedence Users.sampleHelpers Users.threePages
           Users.bothSelectors "00g1").
  vm_compute. reflexivity.
Defined.

(** X9: when [delay_read_seconds] is not set, or set to the empty string,
    the read logs nothing and does not sleep: everything it does is a
    request. *)
Theorem users_no_delay (h : Users.Helpers) (client : Users.Client)
    (d : schema.ResourceData) :
  schema.rd_attrs d !! "delay_read_seconds" = None \/
  schema.rd_attrs d !! "delay_read_seconds" = Some (schema.VString "") ->
  Forall (fun e => isRequest e = true)
         (Read.st_trace (snd (Users.dataSourceUsersRead h client d))).
Proof.
  intros Hd. rewrite dataSourceUsersRead_unfold, finish_snd.
  assert (Hnone : Users.delayEvents d = []).
  { unfold Users.delayEvents, Users.GetOkString, schema.GetOk.
    by destruct Hd as [-> | ->]. }
  rewrite Hnone.
  destruct (listAndFlatten_requests h client (Read.mkState d []))
    as (evs & E & F & _).
  by rewrite E.
Qed.

Lemma users_no_delay_witness :
  Forall (fun e => isRequest e = true)
         (Read.st_trace (snd (Users.dataSourceUsersRead Users.sampleHelpers
                                Users.threePages Users.emptyDelay))).
Proof.
  apply (users_no_delay Users.sampleHelpers Users.threePages Users.emptyDelay).
  right. vm_compute. reflexivity.
Defined.

(** X10: a delay of zero or a negative number of seconds (down to
    -9223372036) is logged like any other, and the read does not block:
    the duration handed to [time.Sleep] is zero or negative. *)
Theorem users_nonpositive_delay (h : Users.Helpers) (client : Users.Client)
    (d : schema.ResourceData) (n : string) (delay : Z) :
  Users.GetOkString d "delay_read_seconds" = Some n ->
  Go.Atoi n = Some delay ->
  -9223372036 <= delay <= 0 ->
  Go.blocked_ns (delay * Go.Second) = 0 /\
  exists evs,
    Read.st_trace (snd (Users.dataSourceUsersRead h client d))
      = Users.infoDelaying delay :: Sleep (delay * Go.Second) :: evs.
Proof.
  intros Hn Ha Hrange. rewrite dataSourceUsersRead_unfold, finish_snd.
  unfold Users.delayEvents. rewrite Hn, Ha.
  assert (Hs : Go.seconds delay = delay * Go.Second).
  { unfold Go.seconds, Go.mul64, Go.Second. apply wrap64_small. lia. }
  rewrite Hs. split; [unfold Go.blocked_ns, Go.Second; lia|].
  destruct (listAndFlatten_requests h client
              (Read.mkState d [Users.infoDelaying delay;
                               Sleep (delay * Go.Second)]))
    as (evs & E & _ & _).
  exists evs. by rewrite E.
Qed.

Lemma users_nonpositive_delay_witness :
  Go.blocked_ns (-5 * Go.Second) = 0 /\
  exists evs,
    Read.st_trace (snd (Users.dataSourceUsersRead Users.sampleHelpers
                          Users.threePages Users.negativeDelay))
      = Users.infoDelaying (-5) :: Sleep (-5 * Go.Second) :: evs.
Proof.
  apply (users_nonpositive_delay Users.sampleHelpers Users.threePages
           Users.negativeDelay "-5" (-5)).
  - vm_compute. reflexivity.
  - vm_compute. reflexivity.
  - lia.
Defined.

(* ===================================================================== *)
(** ** The checksum stays a [uint32] *)
(* ===================================================================== *)

Section Checksum.

Lemma lxor_bound (n a b : Z) :
  0 <= n -> 0 <= a < 2 ^ n -> 0 <= b < 2 ^ n -> 0 <= Z.lxor a b < 2 ^ n.
Proof.
  intros Hn Ha Hb.
  assert (Hnn : 0 <= Z.lxor a b) by (apply Z.lxor_nonneg; lia).
  split; [done|].
  destruct (Z.eq_dec (Z.lxor a b) 0) as [->|Hx].
  { apply Z.pow_pos_nonneg; lia. }
  assert (Hpos : 0 < n).
  { destruct (Z.eq_dec n 0) as [->|]; [|lia].
    assert (a = 0) by lia. assert (b = 0) by lia. subst. by cbn in Hx. }
  apply Z.log2_lt_pow2; [lia|].
  eapply Z.le_lt_trans; [apply Z.log2_lxor; lia|].
  apply Z.max_lub_lt.
  - destruct (Z.eq_dec a 0) as [->|]; [done|]. apply Z.log2_lt_pow2; lia.
  - destruct (Z.eq_dec b 0) as [->|]; [done|]. apply Z.log2_lt_pow2; lia.
Qed.

Lemma shiftr_bound (a k : Z) : 0 <= k -> crc32.u32 a -> crc32.u32 (Z.shiftr a k).
Proof.
  intros Hk [Ha Hb]. unfold crc32.u32. rewrite Z.shiftr_div_pow2 by done.
  assert (0 < 2 ^ k) by (apply Z.pow_pos_nonneg; lia).
  split; [apply Z.div_pos; lia|].
  eapply Z.le_lt_trans; [|exact Hb].
  apply Z.div_le_upper_bound; nia.
Qed.

Lemma round_bound (crc : Z) : crc32.u32 crc -> crc32.u32 (crc32.round crc32.IEEE crc).
Proof.
  intros H. unfold crc32.round.
  pose proof (shiftr_bound crc 1 ltac:(lia) H) as Hs.
  destruct (Z.odd crc); [|done].
  apply (lxor_bound 32); [lia|done|]. unfold crc32.IEEE. lia.
Qed.

Lemma tab_bound (i : Z) : crc32.u32 i -> crc32.u32 (crc32.tab crc32.IEEE i).
Proof.
  intros H. unfold crc32.tab. cbn [Nat.iter nat_rect].
  by do 8 apply round_bound.
Qed.

Lemma not32_bound (crc : Z) : crc32.u32 crc -> crc32.u32 (crc32.not32 crc).
Proof.
  intros H. apply (lxor_bound 32); [lia|done|]. unfold crc32.mask32. lia.
Qed.

Lemma bytes_bound (s : string) : Forall (fun v => 0 <= v < 256) (Go.bytes s).
Proof.
  unfold Go.bytes. induction s as [|c s IH]; cbn; constructor; [|done].
  pose proof (N_ascii_bounded c). lia.
Qed.

Lemma ChecksumIEEE_bound (data : list Z) :
  Forall (fun v => 0 <= v < 256) data -> crc32.u32 (crc32.ChecksumIEEE data).
Proof.
  intros Hdata. unfold crc32.ChecksumIEEE, crc32.simpleUpdate.
  apply not32_bound.
  assert (H0 : crc32.u32 (crc32.not32 0)) by (cbv; split; congruence).
  revert H0. generalize (crc32.not32 0).
  induction Hdata as [|v data Hv _ IH]; intros crc Hcrc; [done|].
  cbn [fold_left]. apply IH.
  apply (lxor_bound 32); [lia| |by apply shiftr_bound].
  apply tab_bound.
  assert (Hlow : 0 <= Z.land crc 255 < 2 ^ 8).
  { change 255 with (Z.ones 8). rewrite Z.land_ones by lia.
    apply Z.mod_pos_bound. lia. }
  pose proof (lxor_bound 8 (Z.land crc 255) v ltac:(lia) Hlow ltac:(lia)).
  unfold crc32.u32. lia.
Qed.

End Checksum.

(** X11: the identifier a search read sets, once its listing succeeded,
    is the decimal text of an unsigned 32-bit number, whatever the query
    string is. *)
Theorem users_search_id_range (h : Users.Helpers) (client : Users.Client)
    (d : schema.ResourceData) :
  Users.GetOkString d "group_id" = None ->
  is_Some (schema.GetOk d "search") ->
  snd (fst (Users.collectUsers client (Users.searchParams h d))) = None ->
  exists n,
    0 <= n < 2 ^ 32 /\
    schema.rd_id (Read.st_d (snd (Users.dataSourceUsersRead h client d)))
      = Go.Sprintf_d n.
Proof.
  intros Hg Hs Hok.
  rewrite dataSourceUsersRead_unfold, finish_snd.
  rewrite (listAndFlatten_search_id h client (Read.mkState d _) Hg Hs Hok).
  eexists. split; [|reflexivity].
  apply ChecksumIEEE_bound, bytes_bound.
Qed.

Lemma users_search_id_range_witness :
  exists n,
    0 <= n < 2 ^ 32 /\
    schema.rd_id (Read.st_d (snd (Users.dataSourceUsersRead
                                    Users.sampleHelpers Users.threePages
                                    Users.bySearch)))
      = Go.Sprintf_d n.
Proof.
  apply (users_search_id_range Users.sampleHelpers Users.threePages
           Users.bySearch).
  - vm_compute. reflexivity.
  - vm_compute. eexists. reflexivity.
  - reflexivity.
Defined.


(** X12: a lookup by identifier asks for that application and nothing
    else: when the call succeeds its result is the application the read
    goes on with, without a listing request and without comparing labels;
    when it fails the read returns "failed get app by ID" with the error
    and leaves [d] as it was. *)
Theorem app_lookup_by_id (h : AppOauth.Helpers) (client : AppOauth.Client)
    (d : schema.ResourceData) (filters : AppOauth.appFilters)
    (app : AppOauth.OpenIdConnectApplication) :
  AppOauth.getAppFilters h d = (filters, None) ->
  AppOauth.ID filters <> "" ->
  (AppOauth.GetApplication client (AppOauth.ID filters) = (app, None) ->
   AppOauth.findApp h client filters (Read.mkState d [])
     = (Read.Next app,
        Read.mkState d [Request (ReqGetApplication (AppOauth.ID filters))])) /\
  (forall err,
      AppOauth.GetApplication client (AppOauth.ID filters) = (app, Some err) ->
      AppOauth.dataSourceAppOauthRead h client d
        = (Some (Errorf ("failed get app by ID: " +:+ err)),
           Read.mkState d [Request (ReqGetApplication (AppOauth.ID filters))])).
Proof.
  intros Hf Hid.
  assert (Hne : negb (String.eqb (AppOauth.ID filters) "") = true).
  { destruct (String.eqb (AppOauth.ID filters) "") eqn:E; [|done].
    apply String.eqb_eq in E. contradiction. }
  split.
  - intros Hget. unfold AppOauth.findApp. rewrite Hne.
    unfold Read.bind, Read.io. cbn [fst snd]. by rewrite Hget.
  - intros err Hget.
    apply (appRead_lookup_fails h client d filters); [done|].
    unfold AppOauth.findApp. rewrite Hne.
    unfold Read.bind, Read.io. cbn [fst snd]. by rewrite Hget.
Qed.

(** X13: a lookup by label or prefix that cannot be listed, or lists
    nothing, fails and leaves [d] as it was: a request that cannot be
    built fails without anything being sent, a failing request fails with
    the same "failed to list OAuth apps" diagnostic, and an empty list
    gives "no OAuth application found with provided filter". *)
Theorem app_lookup_failures (h : AppOauth.Helpers) (client : AppOauth.Client)
    (d : schema.ResourceData) (filters : AppOauth.appFilters) :
  AppOauth.getAppFilters h d = (filters, None) ->
  AppOauth.ID filters = "" ->
  (forall err,
      AppOauth.NewRequest client "GET" (AppOauth.listAppsURL h filters)
        = Some err ->
      AppOauth.dataSourceAppOauthRead h client d
        = (Some (Errorf ("failed to list OAuth apps: " +:+ err)),
           Read.mkState d [])) /\
  (forall apps err,
      AppOauth.NewRequest client "GET" (AppOauth.listAppsURL h filters)
        = None ->
      AppOauth.Do_appList client (AppOauth.listAppsURL h filters)
        = (apps, Some err) ->
      AppOauth.dataSourceAppOauthRead h client d
        = (Some (Errorf ("failed to list OAuth apps: " +:+ err)),
           Read.mkState d
             [Request (ReqHTTP "GET" (AppOauth.listAppsURL h filters))])) /\
  (AppOauth.NewRequest client "GET" (AppOauth.listAppsURL h filters) = None ->
   AppOauth.Do_appList client (AppOauth.listAppsURL h filters) = ([], None) ->
   AppOauth.dataSourceAppOauthRead h client d
     = (Some (Errorf ("no OAuth application found with provided filter: "
                      +:+ AppOauth.filters_String h filters)),
        Read.mkState d
          [Request (ReqHTTP "GET" (AppOauth.listAppsURL h filters))])).
Proof.
  intros Hf Hid.
  split; [|split].
  - intros err Hreq.
    apply (appRead_lookup_fails h client d filters); [done|].
    unfold AppOauth.findApp. rewrite Hid. cbn [String.eqb negb].
    by rewrite Hreq.
  - intros apps err Hreq Hdo.
    apply (appRead_lookup_fails h client d filters); [done|].
    unfold AppOauth.findApp. rewrite Hid. cbn [String.eqb negb].
    rewrite Hreq. unfold Read.bind, Read.io. cbn [fst snd]. by rewrite Hdo.
  - intros Hreq Hdo.
    apply (appRead_lookup_fails h client d filters); [done|].
    unfold AppOauth.findApp. rewrite Hid. cbn [String.eqb negb].
    rewrite Hreq. unfold Read.bind, Read.io. cbn [fst snd]. by rewrite Hdo.
Qed.

(** X14: a lookup without an exact label (by prefix, or by status alone)
    takes the first application of the list, whatever its label and
    whatever follows it, and logs that it does. *)
Theorem app_lookup_first_of_list (h : AppOauth.Helpers)
    (client : AppOauth.Client) (filters : AppOauth.appFilters)
    (app0 : AppOauth.OpenIdConnectApplication)
    (rest : list AppOauth.OpenIdConnectApplication) (s : Read.State) :
  AppOauth.ID filters = "" ->
  AppOauth.Filter_Label filters = "" ->
  AppOauth.NewRequest client "GET" (AppOauth.listAppsURL h filters) = None ->
  AppOauth.Do_appList client (AppOauth.listAppsURL h filters)
    = (app0 :: rest, None) ->
  fst (AppOauth.findApp h client filters s) = Read.Next app0 /\
  exists line,
    Read.st_trace (snd (AppOauth.findApp h client filters s))
      = Read.st_trace s
        ++ [Request (ReqHTTP "GET" (AppOauth.listAppsURL h filters));
            LogInfo [line]].
Proof.
  intros Hid Hlabel Hreq Hdo.
  unfold AppOauth.findApp. rewrite Hid. cbn [String.eqb negb].
  rewrite Hreq. unfold Read.bind at 1. unfold Read.io at 1. cbn [fst snd].
  rewrite Hdo, Hlabel. cbn [String.eqb negb andb].
  unfold Read.bind, Read.emit, Read.io, io_emit, Read.ret.
  cbn [fst snd Read.st_d Read.st_trace].
  split; [done|]. eexists. by rewrite <- app_assoc.
Qed.

Lemma app_lookup_by_id_witness :
  AppOauth.findApp AppOauth.sampleHelpers
    (AppOauth.server [] [AppOauth.newerSecret])
    (AppOauth.mkAppFilters "0oa1" "" "" "status eq ACTIVE")
    (Read.mkState (AppOauth.byId "0oa1") [])
    = (Read.Next AppOauth.billing,
       Read.mkState (AppOauth.byId "0oa1") [Request (ReqGetApplication "0oa1")]) /\
  AppOauth.dataSourceAppOauthRead AppOauth.sampleHelpers AppOauth.erroring
    (AppOauth.byId "0oa1")
    = (Some (Errorf "failed get app by ID: 404 Not Found"),
       Read.mkState (AppOauth.byId "0oa1") [Request (ReqGetApplication "0oa1")]).
Proof.
  split.
  - apply (app_lookup_by_id AppOauth.sampleHelpers
             (AppOauth.server [] [AppOauth.newerSecret])
             (AppOauth.byId "0oa1")
             (AppOauth.mkAppFilters "0oa1" "" "" "status eq ACTIVE")
             AppOauth.billing);
      [vm_compute; reflexivity | discriminate | reflexivity].
  - apply (proj2 (app_lookup_by_id AppOauth.sampleHelpers AppOauth.erroring
                    (AppOauth.byId "0oa1")
                    (AppOauth.mkAppFilters "0oa1" "" "" "status eq ACTIVE")
                    AppOauth.billing
                    ltac:(vm_compute; reflexivity) ltac:(discriminate))
             "404 Not Found").
    reflexivity.
Defined.

Lemma app_lookup_failures_witness :
  AppOauth.dataSourceAppOauthRead AppOauth.sampleHelpers AppOauth.offline
    (AppOauth.byPrefix "billing")
    = (Some (Errorf "failed to list OAuth apps: parse: invalid URL"),
       Read.mkState (AppOauth.byPrefix "billing") []) /\
  fst (AppOauth.dataSourceAppOauthRead AppOauth.sampleHelpers AppOauth.erroring
         (AppOauth.byPrefix "billing"))
    = Some (Errorf "failed to list OAuth apps: 500 Internal Server Error") /\
  fst (AppOauth.dataSourceAppOauthRead AppOauth.sampleHelpers
         (AppOauth.server [] []) (AppOauth.byPrefix "billing"))
    = Some (Errorf "no OAuth application found with provided filter: id: , label: ").
Proof.
  split; [|split].
  - apply (proj1 (app_lookup_failures AppOauth.sampleHelpers AppOauth.offline
                    (AppOauth.byPrefix "billing")
                    (AppOauth.mkAppFilters "" "" "billing" "status eq ACTIVE")
                    ltac:(vm_compute; reflexivity) eq_refl)
             "parse: invalid URL").
    reflexivity.
  - rewrite (proj1 (proj2 (app_lookup_failures AppOauth.sampleHelpers
                             AppOauth.erroring (AppOauth.byPrefix "billing")
                             (AppOauth.mkAppFilters "" "" "billing"
                                                    "status eq ACTIVE")
                             ltac:(vm_compute; reflexivity) eq_refl))
               [] "500 Internal Server Error" eq_refl eq_refl).
    reflexivity.
  - rewrite (proj2 (proj2 (app_lookup_failures AppOauth.sampleHelpers
                             (AppOauth.server [] []) (AppOauth.byPrefix "billing")
                             (AppOauth.mkAppFilters "" "" "billing"
                                                    "status eq ACTIVE")
                             ltac:(vm_compute; reflexivity) eq_refl))
               eq_refl eq_refl).
    reflexivity.
Defined.

Lemma app_lookup_first_of_list_witness :
  fst (AppOauth.findApp AppOauth.sampleHelpers
         (AppOauth.server [AppOauth.billingStaging; AppOauth.billing] [])
         (AppOauth.mkAppFilters "" "" "billing" "status eq ACTIVE")
         (Read.mkState (AppOauth.byPrefix "billing") []))
    = Read.Next AppOauth.billingStaging.
Proof.
  apply (app_lookup_first_of_list AppOauth.sampleHelpers
           (AppOauth.server [AppOauth.billingStaging; AppOauth.billing] [])
           (AppOauth.mkAppFilters "" "" "billing" "status eq ACTIVE")
           AppOauth.billingStaging [AppOauth.billing]
           (Read.mkState (AppOauth.byPrefix "billing") []));
    reflexivity.
Defined.

Section AppOauthAfterLookup.

Import Read schema AppOauth.

Variable h : Helpers.
Variable client : Client.

(** What follows a lookup that selected [app]. *)
Lemma appRead_selected (d : ResourceData) (filters : appFilters)
    (app : OpenIdConnectApplication) :
  getAppFilters h d = (filters, None) ->
  fst (findApp h client filters (mkState d [])) = Next app ->
  dataSourceAppOauthRead h client d =
    match setAppUsersIDsAndGroupsIDs client d (App_Id app) with
    | (d', Some err) =>
        (Some (Errorf ("failed to list OAuth's app groups and users: "
                       +:+ err)),
         mkState d' (st_trace (snd (findApp h client filters (mkState d [])))
                     ++ [Request (ReqUsersAndGroups (App_Id app))]))
    | (d', None) =>
        pfinish (pbind (fetchClientSecret client app) (fun _ => flatten h app)
                       (mkState d'
                          (st_trace (snd (findApp h client filters (mkState d [])))
                           ++ [Request (ReqUsersAndGroups (App_Id app))])))
    end.
Proof.
  intros Hf Hfind.
  pose proof (findApp_keeps_d h client filters (mkState d [])) as Hd.
  destruct (findApp h client filters (mkState d [])) as [r s1] eqn:E.
  cbn in Hfind, Hd. subst r.
  rewrite (appRead_lookup_selects h client d filters app s1 Hf E).
  cbn [snd]. by rewrite Hd.
Qed.

Lemma fetchClientSecret_run (app : OpenIdConnectApplication) (s : State) :
  fetchClientSecret client app s =
    match NewRequest client "GET" (secretsURL (App_Id app)) with
    | Some err =>
        (Some (Done (Errorf ("failed to list OAuth client secrets: "
                             +:+ err))), s)
    | None =>
        let s' := mkState (st_d s)
                    (st_trace s
                     ++ [Request (ReqHTTP "GET" (secretsURL (App_Id app)))]) in
        match Do_secretList client (secretsURL (App_Id app)) with
        | (secretList, Some err) =>
            (Some (Done (Errorf ("failed to list OAuth client secrets: "
                                 +:+ err))), s')
        | (secretList, None) =>
            match selectClientSecret secretList with
            | Some clientSecret => (Some (Next clientSecret), s')
            | None => (None, s')
            end
        end
    end.
Proof.
  unfold fetchClientSecret. cbn [negb].
  destruct (NewRequest client "GET" (secretsURL (App_Id app))); [done|].
  unfold pbind, lift, io. cbn [fst snd].
  destruct (Do_secretList client (secretsURL (App_Id app))) as [l [e|]];
    [done|].
  unfold orPanic. by destruct (selectClientSecret l).
Qed.

End AppOauthAfterLookup.

(** X15: when the users and groups of the selected application cannot be
    listed, the read returns "failed to list OAuth's app groups and users"
    with the error, and stops there: the call for users and groups is the
    last thing it did, the secrets are not requested, and [d] is as that
    call left it. *)
Theorem app_users_groups_failure (h : AppOauth.Helpers)
    (client : AppOauth.Client) (d d' : schema.ResourceData)
    (filters : AppOauth.appFilters)
    (app : AppOauth.OpenIdConnectApplication) (err : Go.error) :
  AppOauth.getAppFilters h d = (filters, None) ->
  fst (AppOauth.findApp h client filters (Read.mkState d [])) = Read.Next app ->
  AppOauth.setAppUsersIDsAndGroupsIDs client d (AppOauth.App_Id app)
    = (d', Some err) ->
  AppOauth.dataSourceAppOauthRead h client d
    = (Some (Errorf ("failed to list OAuth's app groups and users: " +:+ err)),
       Read.mkState d'
         (Read.st_trace
            (snd (AppOauth.findApp h client filters (Read.mkState d [])))
          ++ [Request (ReqUsersAndGroups (AppOauth.App_Id app))])).
Proof.
  intros Hf Hfind Hug.
  rewrite (appRead_selected h client d filters app Hf Hfind). by rewrite Hug.
Qed.

Lemma app_users_groups_failure_witness :
  AppOauth.dataSourceAppOauthRead AppOauth.sampleHelpers
    AppOauth.groupsThrottled (AppOauth.byLabel "billing-portal")
    = (Some (Errorf "failed to list OAuth's app groups and users: 429 Too Many Requests"),
       Read.mkState (AppOauth.byLabel "billing-portal")
         (Read.st_trace
            (snd (AppOauth.findApp AppOauth.sampleHelpers
                    AppOauth.groupsThrottled
                    (AppOauth.mkAppFilters "" "billing-portal" ""
                                           "status eq ACTIVE")
                    (Read.mkState (AppOauth.byLabel "billing-portal") [])))
          ++ [Request (ReqUsersAndGroups "0oa1")])).
Proof.
  apply (app_users_groups_failure AppOauth.sampleHelpers
           AppOauth.groupsThrottled (AppOauth.byLabel "billing-portal")
           (AppOauth.byLabel "billing-portal")
           (AppOauth.mkAppFilters "" "billing-portal" "" "status eq ACTIVE")
           AppOauth.billing "429 Too Many Requests");
    [vm_compute; reflexivity | reflexivity | reflexivity].
Defined.

(** X16: when the secrets of the selected application cannot be listed
    (the request cannot be built, or it fails), the read returns "failed
    to list OAuth client secrets" with the error and sets nothing from the
    application, not even the identifier: [d] is as the call for users and
    groups left it. *)
Theorem app_secrets_failure (h : AppOauth.Helpers) (client : AppOauth.Client)
    (d d' : schema.ResourceData) (filters : AppOauth.appFilters)
    (app : AppOauth.OpenIdConnectApplication) (err : Go.error) :
  AppOauth.getAppFilters h d = (filters, None) ->
  fst (AppOauth.findApp h client filters (Read.mkState d [])) = Read.Next app ->
  AppOauth.setAppUsersIDsAndGroupsIDs client d (AppOauth.App_Id app)
    = (d', None) ->
  AppOauth.NewRequest client "GET" (AppOauth.secretsURL (AppOauth.App_Id app))
    = Some err \/
  (AppOauth.NewRequest client "GET" (AppOauth.secretsURL (AppOauth.App_Id app))
     = None /\
   snd (AppOauth.Do_secretList client
          (AppOauth.secretsURL (AppOauth.App_Id app))) = Some err) ->
  fst (AppOauth.dataSourceAppOauthRead h client d)
    = Some (Errorf ("failed to list OAuth client secrets: " +:+ err)) /\
  Read.st_d (snd (AppOauth.dataSourceAppOauthRead h client d)) = d'.
Proof.
  intros Hf Hfind Hug Hfail.
  rewrite (appRead_selected h client d filters app Hf Hfind), Hug.
  unfold Read.pbind. rewrite fetchClientSecret_run.
  destruct Hfail as [Hreq|[Hreq Hdo]]; rewrite Hreq; [done|].
  destruct (AppOauth.Do_secretList client _) as [l e]. cbn in Hdo. by subst e.
Qed.

Lemma app_secrets_failure_witness :
  fst (AppOauth.dataSourceAppOauthRead AppOauth.sampleHelpers
         AppOauth.secretsForbidden (AppOauth.byLabel "billing-portal"))
    = Some (Errorf "failed to list OAuth client secrets: 403 Forbidden") /\
  Read.st_d (snd (AppOauth.dataSourceAppOauthRead AppOauth.sampleHelpers
                    AppOauth.secretsForbidden
                    (AppOauth.byLabel "billing-portal")))
    = schema.mkResourceData ""
        (<["users" := schema.VSet {[ "00u1" ]}]>
           (schema.rd_attrs (AppOauth.byLabel "billing-portal"))).
Proof.
  apply (app_secrets_failure AppOauth.sampleHelpers AppOauth.secretsForbidden
           (AppOauth.byLabel "billing-portal") _
           (AppOauth.mkAppFilters "" "billing-portal" "" "status eq ACTIVE")
           AppOauth.billing "403 Forbidden");
    [vm_compute; reflexivity | reflexivity | reflexivity |].
  right. split; reflexivity.
Defined.







(** X20: the selection never picks the secret of an entry that is not
    ACTIVE, nor of an entry after the second: it returns either the empty
    string or the secret of an ACTIVE entry among the first two. *)
Theorem selectClientSecret_sound (l : list AppOauth.clientSecretItem) :
  AppOauth.selectClientSecret l = Some "" \/
  exists s,
    s ∈ take 2 l /\ AppOauth.Status s = "ACTIVE" /\
    AppOauth.selectClientSecret l = Some (AppOauth.ClientSecret s).
Proof.
  assert (Hact : forall s, AppOauth.isActive s = true ->
                           AppOauth.Status s = "ACTIVE").
  { intros s H. by apply String.eqb_eq in H. }
  destruct l as [|a [|b rest]].
  - by left.
  - rewrite selectClientSecret_one.
    destruct (AppOauth.isActive a) eqn:Ea; [|by left].
    right. exists a. cbn. split; [apply list_elem_of_here|]. by split; [apply Hact|].
  - rewrite selectClientSecret_cons2. cbn [take].
    destruct (AppOauth.isActive a) eqn:Ea, (AppOauth.isActive b) eqn:Eb;
      cbn [andb].
    + destruct (Go.string_gt _ _); right; [exists b|exists a];
        (split; [|by split; [apply Hact|]]).
      * apply list_elem_of_further, list_elem_of_here.
      * apply list_elem_of_here.
    + right. exists a. split; [apply list_elem_of_here|]. by split; [apply Hact|].
    + right. exists b.
      split; [apply list_elem_of_further, list_elem_of_here|].
      by split; [apply Hact|].
    + by left.
Qed.

(** X21: the guards of the selection keep every index within the list:
    it returns, without an index out of range, for every list; from the
    empty list it returns the empty string, and from a single entry that
    entry's secret exactly when the entry is ACTIVE. *)
Theorem selectClientSecret_short (a : AppOauth.clientSecretItem) :
  (forall l, exists secret, AppOauth.selectClientSecret l = Some secret) /\
  AppOauth.selectClientSecret [] = Some "" /\
  (AppOauth.Status a = "ACTIVE" ->
   AppOauth.selectClientSecret [a] = Some (AppOauth.ClientSecret a)) /\
  (AppOauth.Status a <> "ACTIVE" ->
   AppOauth.selectClientSecret [a] = Some "").
Proof.
  split; [apply selectClientSecret_returns|].
  split; [done|]. rewrite selectClientSecret_one. split; intros H.
  - by rewrite (isActive_true a H).
  - by rewrite (isActive_false a H).
Qed.

Lemma selectClientSecret_short_witness :
  AppOauth.selectClientSecret [AppOauth.newerSecret] = Some "newer-secret" /\
  AppOauth.selectClientSecret [AppOauth.retiredSecret] = Some "".
Proof.
  split.
  - apply (selectClientSecret_short AppOauth.newerSecret). reflexivity.
  - apply (selectClientSecret_short AppOauth.retiredSecret). discriminate.
Defined.
